(** * Property-version endpoints of the PAPI client (pkg/papi/propertyversion.go)

    A shallow embedding of the four operations of [propertyversion.go]
    ([GetPropertyVersions], [GetLatestVersion], [GetPropertyVersion],
    [CreatePropertyVersion]) together with models of the library calls they
    make: [fmt.Sprintf] / [fmt.Errorf], [strconv.Atoi], [cast.ToString],
    the ozzo-validation rules, [http.Header] and [errors.Is].

    Go's [int] is modelled as [Z] (no arithmetic is performed on it here;
    [strconv.Atoi] checks the 64-bit range explicitly).  Go strings are
    [string]; [map[string]T] is stdpp's [gmap string T].  The
    [context.Context] argument only carries cancellation and is not
    modelled.  Observable calls (logging, building a request, dispatching
    it) are recorded in a trace. *)

From Stdlib Require Import ZArith String Ascii DecimalString.
From stdpp Require Import base gmap strings list fin_maps.

Set Warnings "-register-all".
Open Scope Z_scope.

(* ===================================================================== *)
(** ** Bytes *)

Definition byte_of (c : ascii) : Z := Z.of_N (N_of_ascii c).

Definition in_range (lo hi : ascii) (c : ascii) : bool :=
  (byte_of lo <=? byte_of c) && (byte_of c <=? byte_of hi).

Definition is_digit (c : ascii) : bool := in_range "0" "9" c.

(* ===================================================================== *)
(** ** package strconv *)

Module strconv.

(** [strconv.FormatBool]. *)
Definition FormatBool (b : bool) : string :=
  if b then "true" else "false".

(** [strconv.Itoa]: base-10 rendering, with a leading [-] for negatives. *)
Definition Itoa (n : Z) : string := NilEmpty.string_of_int (Z.to_int n).

Inductive NumErrorKind := ErrSyntax | ErrRange.

Definition maxUint64 : Z := 2 ^ 64 - 1.
Definition minInt64 : Z := - 2 ^ 63.
Definition maxInt64 : Z := 2 ^ 63 - 1.

(** The digit loop of [ParseUint] for base 10: a byte that is not a
    digit is a syntax error (an underscore too, since the base is given
    explicitly), a value above [maxUint64] a range error, reported as soon
    as it is reached. *)
Fixpoint parse_digits (s : string) (n : Z) : NumErrorKind + Z :=
  match s with
  | EmptyString => inr n
  | String c s' =>
      if is_digit c then
        let n1 := n * 10 + (byte_of c - byte_of "0") in
        if maxUint64 <? n1 then inl ErrRange else parse_digits s' n1
      else inl ErrSyntax
  end.

Definition ParseUint (s : string) : NumErrorKind + Z :=
  match s with
  | EmptyString => inl ErrSyntax
  | _ => parse_digits s 0
  end.

(** [strconv.Atoi] on a platform with 64-bit [int]: an optional sign, then
    one or more decimal digits, the value within the range of [int64].
    The fast path of the Go function (inputs shorter than 19 bytes)
    computes the same value as [ParseInt(s, 10, 0)] and is not modelled
    apart. *)
Definition Atoi (s : string) : NumErrorKind + Z :=
  match s with
  | EmptyString => inl ErrSyntax
  | String c rest =>
      let neg := Ascii.eqb c "-" in
      let digits := if Ascii.eqb c "+" || neg then rest else s in
      match ParseUint digits with
      | inl k => inl k
      | inr un =>
          if negb neg && (maxInt64 <? un) then inl ErrRange
          else if neg && (- minInt64 <? un) then inl ErrRange
          else inr (if neg then - un else un)
      end
  end.

End strconv.

(* ===================================================================== *)
(** ** package cast (github.com/spf13/cast) *)

Module cast.
(** [cast.ToString] at a [bool] is [strconv.FormatBool]. *)
Definition ToString (b : bool) : string := strconv.FormatBool b.
End cast.

(* ===================================================================== *)
(** ** package validation (github.com/go-ozzo/ozzo-validation/v4) *)

Module validation.

(** A validation failure: the error object of a rule, or the [Errors] map
    that a struct's own [Validate] returns. *)
Inductive Err : Type :=
  | ErrorObject (code message : string)
  | Errors (es : gmap string Err).

Definition ErrRequired : Err := ErrorObject "validation_required" "cannot be blank".
Definition ErrInInvalid : Err := ErrorObject "validation_in_invalid" "must be a valid value".

(** [validation.IsEmpty]: a string is empty when its length is 0, an
    integer when it is 0. *)
Class IsEmpty (A : Type) := is_empty_value : A -> bool.
#[global] Instance string_IsEmpty : IsEmpty string :=
  fun s => Nat.eqb (String.length s) 0.
#[global] Instance int_IsEmpty : IsEmpty Z := fun n => n =? 0.

(** A rule returns [None] for Go's [nil]. *)
Definition Rule (A : Type) : Type := A -> option Err.

(** [validation.Required]. *)
Definition Required {A} `{IsEmpty A} : Rule A :=
  fun value => if is_empty_value value then Some ErrRequired else None.

(** [validation.In(values...)]: an empty value is accepted, the rule is
    checked only on a value that is present. *)
Definition In {A} `{IsEmpty A} `{EqDecision A} (elements : list A) : Rule A :=
  fun value =>
    if is_empty_value value then None
    else if bool_decide (value ∈ elements) then None
    else Some ErrInInvalid.

(** [validation.Validate(value, rules...)]: the first failing rule decides;
    when all rules pass and the value implements [Validatable], its own
    [Validate] method is called ([self] is that method, [None] for a
    type without one). *)
Fixpoint apply_rules {A} (value : A) (rules : list (Rule A)) : option Err :=
  match rules with
  | [] => None
  | rule :: rules' =>
      match rule value with
      | Some err => Some err
      | None => apply_rules value rules'
      end
  end.

Definition Validate {A} (self : option (A -> option Err)) (value : A)
    (rules : list (Rule A)) : option Err :=
  match apply_rules value rules with
  | Some err => Some err
  | None =>
      match self with
      | Some method => method value
      | None => None
      end
  end.

(** [Errors.Filter]: entries whose error is nil are deleted; the result is
    nil when nothing is left. *)
Definition Filter (es : gmap string (option Err)) : option Err :=
  let es' := omap id es in
  if decide (size es' = 0%nat) then None else Some (Errors es').

End validation.

(* ===================================================================== *)
(** ** packages net/url and net/http: requests, responses, headers *)

Module url.
(** The parts of a parsed [url.URL] that a relative reference such as
    ["/papi/v1/...?contractId=..."] has. *)
Record URL := { Path : string; RawQuery : string }.
End url.

Module http.

Inductive Method := MethodGet | MethodPost.

Definition StatusOK : Z := 200.
Definition StatusCreated : Z := 201.
Definition StatusNotFound : Z := 404.

Definition is_lower (c : ascii) : bool := in_range "a" "z" c.
Definition is_upper (c : ascii) : bool := in_range "A" "Z" c.

(** [validHeaderFieldByte]: the token characters of RFC 7230. *)
Definition validHeaderFieldByte (c : ascii) : bool :=
  is_lower c || is_upper c || is_digit c
  || bool_decide (c ∈ list_ascii_of_string "!#$%&'*+-.^_`|~").

Definition to_upper (c : ascii) : ascii :=
  if is_lower c then ascii_of_N (N_of_ascii c - 32) else c.
Definition to_lower (c : ascii) : ascii :=
  if is_upper c then ascii_of_N (N_of_ascii c + 32) else c.

(** The rewriting loop of [canonicalMIMEHeaderKey]: upper case at the
    start and after each dash, lower case elsewhere. *)
Fixpoint canonical_loop (upper : bool) (s : string) : string :=
  match s with
  | EmptyString => EmptyString
  | String c s' =>
      let c' := if upper then to_upper c else to_lower c in
      String c' (canonical_loop (Ascii.eqb c' "-") s')
  end.

(** [textproto.CanonicalMIMEHeaderKey]: a key holding a byte that is not
    a token character is returned unchanged. *)
Definition CanonicalMIMEHeaderKey (s : string) : string :=
  if forallb validHeaderFieldByte (list_ascii_of_string s)
  then canonical_loop true s else s.

(** [http.Header] is [map[string][]string]. *)
Abbreviation Header := (gmap string (list string)).

Definition Header_Set (h : Header) (key value : string) : Header :=
  <[CanonicalMIMEHeaderKey key := [value]]> h.

Definition Header_Get (h : Header) (key : string) : string :=
  match h !! CanonicalMIMEHeaderKey key with
  | Some (v :: _) => v
  | _ => EmptyString
  end.

Record Request := {
  Method_ : Method;
  URL : url.URL;
  Header_ : Header;
  Body : option string;
}.

Record Response := {
  StatusCode : Z;
  RespBody : string;
}.

End http.

(* ===================================================================== *)
(** ** Errors: sentinels, wrapping, [errors.Is] *)

(** The package-level error values this file refers to:
    [papi.ErrStructValidation], [session.ErrNotFound] and
    [tools.ErrInvalidLocation].  Each is one [errors.New] value, compared
    by identity. *)
Inductive sentinel := ErrStructValidation | ErrNotFound | ErrInvalidLocation.

#[export] Instance sentinel_eq_dec : EqDecision sentinel.
Proof. solve_decision. Defined.

(** Error values.  [errorString] is a sentinel; [foreignError] an error made
    by a library ([url.Parse], the transport); [APIError] the error that
    [session.NewAPIError] builds from a response; [fmtError] and [wrapError]
    what [fmt.Errorf] returns, without and with a [%w] verb: a [wrapError]
    keeps the format and the operands and unwraps to the operand of [%w].

    An operand of [fmt.Errorf] is an error ([AErr]), a string ([AStr]), or
    the string that [err.Error()] gives for an error ([AErrorText]) or for a
    validation failure ([AErrText]); the message texts are not rendered. *)
Inductive error : Type :=
  | errorString (id : sentinel)
  | foreignError (text : string)
  | APIError (resp : http.Response)
  | fmtError (format : string) (args : list arg)
  | wrapError (format : string) (err : error) (args : list arg)
with arg : Type :=
  | AErr (e : error)
  | AStr (s : string)
  | AErrorText (e : error)
  | AErrText (v : validation.Err).

Module errors.

(** [errors.Unwrap]. *)
Definition Unwrap (err : error) : option error :=
  match err with
  | wrapError _ inner _ => Some inner
  | _ => None
  end.

(** [errors.Is] at a sentinel target: the chain of [Unwrap] is followed
    until the target itself is met.  Wrapping errors are pointers, never
    equal to a sentinel. *)
Fixpoint Is (err : error) (target : sentinel) : bool :=
  match err with
  | errorString id => bool_decide (id = target)
  | wrapError _ inner _ => Is inner target
  | _ => false
  end.

End errors.

(* ===================================================================== *)
(** ** package fmt *)

Module fmt.

Inductive operand := Str (s : string) | Int (n : Z).

Definition type_and_value (a : operand) : string :=
  match a with
  | Str s => "string=" +:+ s
  | Int n => "int=" +:+ strconv.Itoa n
  end.

(** One operand under one verb; a verb that does not fit the operand's
    type prints Go's [%!verb(type=value)]. *)
Definition render (verb : ascii) (a : operand) : string :=
  match a with
  | Str s =>
      if Ascii.eqb verb "s" || Ascii.eqb verb "v" then s
      else "%!" +:+ String verb ("(" +:+ type_and_value a +:+ ")")
  | Int n =>
      if Ascii.eqb verb "d" || Ascii.eqb verb "v" then strconv.Itoa n
      else "%!" +:+ String verb ("(" +:+ type_and_value a +:+ ")")
  end.

Fixpoint join_extra (args : list operand) : string :=
  match args with
  | [] => EmptyString
  | [a] => type_and_value a
  | a :: args' => type_and_value a +:+ ", " +:+ join_extra args'
  end.

(** [fmt.Sprintf] for the verbs [%s], [%d], [%v] and [%%], without flags
    or widths. *)
Fixpoint Sprintf (format : string) (args : list operand) : string :=
  match format with
  | EmptyString =>
      match args with
      | [] => EmptyString
      | _ => "%!(EXTRA " +:+ join_extra args +:+ ")"
      end
  | String c rest =>
      if Ascii.eqb c "%" then
        match rest with
        | EmptyString => "%!(NOVERB)"
        | String verb rest' =>
            if Ascii.eqb verb "%" then String "%" (Sprintf rest' args)
            else
              match args with
              | [] => "%!" +:+ String verb ("(MISSING)" +:+ Sprintf rest' [])
              | a :: args' => render verb a +:+ Sprintf rest' args'
              end
        end
      else String c (Sprintf rest args)
  end.

(** The operand of the first [%w] verb of a format, when it is an error. *)
Fixpoint wrapped (format : string) (args : list arg) : option error :=
  match format with
  | EmptyString => None
  | String c rest =>
      if Ascii.eqb c "%" then
        match rest with
        | EmptyString => None
        | String verb rest' =>
            if Ascii.eqb verb "%" then wrapped rest' args
            else
              match args with
              | [] => None
              | a :: args' =>
                  match a with
                  | AErr e => if Ascii.eqb verb "w" then Some e else wrapped rest' args'
                  | _ => wrapped rest' args'
                  end
              end
        end
      else wrapped rest args
  end.

(** [fmt.Errorf]: with a [%w] verb on an error operand the result wraps
    that operand, otherwise it is a plain error. *)
Definition Errorf (format : string) (args : list arg) : error :=
  match wrapped format args with
  | Some e => wrapError format e args
  | None => fmtError format args
  end.

End fmt.

(* ===================================================================== *)
(** ** package papi: request and response structures *)

Record GetPropertyVersionsRequest := {
  gvs_PropertyID : string;
  gvs_ContractID : string;
  gvs_GroupID : string;
  gvs_Limit : Z;
  gvs_Offset : Z;
}.

Record PropertyVersionGetItem := {
  Etag : string;
  Note : string;
  ProductID : string;
  ProductionStatus : string;
  item_PropertyVersion : Z;
  RuleFormat : string;
  StagingStatus : string;
  UpdatedByUser : string;
  UpdatedDate : string;
}.

Record PropertyVersionItems := { Items : list PropertyVersionGetItem }.

Record GetPropertyVersionsResponse := {
  resp_PropertyID : string;
  resp_PropertyName : string;
  resp_AccountID : string;
  resp_ContractID : string;
  resp_GroupID : string;
  resp_AssetID : string;
  resp_Versions : PropertyVersionItems;
}.

Record GetPropertyVersionRequest := {
  gv_PropertyID : string;
  gv_PropertyVersion : Z;
  gv_ContractID : string;
  gv_GroupID : string;
}.

Record PropertyVersionCreate := {
  CreateFromVersion : Z;
  CreateFromVersionEtag : string;
}.

Record CreatePropertyVersionRequest := {
  cv_PropertyID : string;
  cv_ContractID : string;
  cv_GroupID : string;
  cv_Version : PropertyVersionCreate;
}.

Record CreatePropertyVersionResponse := {
  VersionLink : string;
  PropertyVersion : Z;
}.

Record GetLatestVersionRequest := {
  lv_PropertyID : string;
  lv_ActivatedOn : string;
  lv_ContractID : string;
  lv_GroupID : string;
}.

Definition VersionProduction : string := "PRODUCTION".
Definition VersionStaging : string := "STAGING".

(** The zero values that [var versions GetPropertyVersionsResponse] and
    [var version CreatePropertyVersionResponse] declare. *)
Definition zero_GetPropertyVersionsResponse : GetPropertyVersionsResponse :=
  {| resp_PropertyID := EmptyString; resp_PropertyName := EmptyString; resp_AccountID := EmptyString;
     resp_ContractID := EmptyString; resp_GroupID := EmptyString; resp_AssetID := EmptyString;
     resp_Versions := {| Items := [] |} |}.

Definition zero_CreatePropertyVersionResponse : CreatePropertyVersionResponse :=
  {| VersionLink := EmptyString; PropertyVersion := 0 |}.

(* ===================================================================== *)
(** ** The [Validate] methods *)

(** The method a type has when it implements [validation.Validatable]. *)
Class Validatable (A : Type) := Validate : A -> option validation.Err.

Definition not_validatable {A} : option (A -> option validation.Err) := None.

#[export] Instance GetPropertyVersionsRequest_Validate :
    Validatable GetPropertyVersionsRequest := fun v =>
  validation.Filter
    {[ "PropertyID" :=
         validation.Validate not_validatable (gvs_PropertyID v) [validation.Required] ]}.

#[export] Instance GetPropertyVersionRequest_Validate :
    Validatable GetPropertyVersionRequest := fun v =>
  validation.Filter
    (<[ "PropertyID" :=
          validation.Validate not_validatable (gv_PropertyID v) [validation.Required] ]>
     {[ "PropertyVersion" :=
          validation.Validate not_validatable (gv_PropertyVersion v) [validation.Required] ]}).

#[export] Instance PropertyVersionCreate_Validate :
    Validatable PropertyVersionCreate := fun v =>
  validation.Filter
    {[ "CreateFromVersion" :=
         validation.Validate not_validatable (CreateFromVersion v) [validation.Required] ]}.

#[export] Instance CreatePropertyVersionRequest_Validate :
    Validatable CreatePropertyVersionRequest := fun v =>
  validation.Filter
    (<[ "PropertyID" :=
          validation.Validate not_validatable (cv_PropertyID v) [validation.Required] ]>
     {[ "Version" :=
          validation.Validate (Some (Validate (A := PropertyVersionCreate)))
            (cv_Version v) [] ]}).

#[export] Instance GetLatestVersionRequest_Validate :
    Validatable GetLatestVersionRequest := fun v =>
  validation.Filter
    (<[ "PropertyID" :=
          validation.Validate not_validatable (lv_PropertyID v) [validation.Required] ]>
     {[ "ActivatedOn" :=
          validation.Validate not_validatable (lv_ActivatedOn v)
            [validation.In [VersionProduction; VersionStaging]] ]}).

(* ===================================================================== *)
(** ** package session and the client structure *)

(** The dynamic types of the [out interface{}] argument that this file
    passes to [Exec]. *)
Inductive OutKind := OutVersions | OutCreate.

Definition out_type (k : OutKind) : Type :=
  match k with
  | OutVersions => GetPropertyVersionsResponse
  | OutCreate => CreatePropertyVersionResponse
  end.

Module session.

(** [Session.Exec(req, out)]: the transport.  It returns an error, or the
    response together with the value it left in [out]. *)
Record Session := {
  Exec : forall k : OutKind,
    http.Request -> out_type k -> error + (http.Response * out_type k);
}.

(** Modelled from the spec: [session.NewAPIError] is declared in package
    session, outside this file; the spec calls its result the generic API
    error, an error kind apart from not-found.  It is built from the
    response. *)
Definition NewAPIError (resp : http.Response) : error := APIError resp.

End session.

(** [type papi struct { session.Session; usePrefixes bool }]. *)
Record papi := {
  Session : session.Session;
  usePrefixes : bool;
}.

(* ===================================================================== *)
(** ** Observable calls *)

Inductive Event :=
  | EvDebug (msg : string)
  | EvNewRequest (method : http.Method) (url : string) (body : option string)
  | EvExec (req : http.Request).

(** A computation that records the calls it makes, in order. *)
Definition Call (A : Type) : Type := (list Event * A)%type.

#[export] Instance Call_ret : MRet Call := fun A a => ([], a).
#[export] Instance Call_bind : MBind Call := fun A B f m =>
  let '(t1, a) := m in
  let '(t2, b) := f a in
  (t1 ++ t2, b).

Definition trace {A} (m : Call A) : list Event := fst m.
Definition result {A} (m : Call A) : A := snd m.

(** What a Go function returning a pointer and an error returns. *)
Definition Returns (T : Type) : Type := (option T * option error)%type.

(** [logger.Debug(msg)]. *)
Definition Debug (msg : string) : Call unit := ([EvDebug msg], tt).

(** [p.Exec(req, &out)]. *)
Definition Exec (p : papi) (k : OutKind) (req : http.Request) (out : out_type k)
    : Call (error + (http.Response * out_type k)) :=
  ([EvExec req], session.Exec (Session p) k req out).

(** [req.Header.Set(key, value)]. *)
Definition set_header (req : http.Request) (key value : string) : http.Request :=
  {| http.Method_ := http.Method_ req;
     http.URL := http.URL req;
     http.Header_ := http.Header_Set (http.Header_ req) key value;
     http.Body := http.Body req |}.

Section Operations.

(** [url.Parse] of the standard library. *)
Variable url_Parse : string -> error + url.URL.

(** [tools.FetchIDFromLocation], declared in package papi/tools: the ID
    that a location-style link ends with, or an error. *)
Variable tools_FetchIDFromLocation : string -> error + string.

(** [http.NewRequestWithContext(ctx, method, url, body)] for a non-nil
    context and one of the method constants: it fails when the URL does
    not parse, and otherwise returns a request with an empty header. *)
Definition NewRequestWithContext (method : http.Method) (u : string)
    (body : option string) : Call (error + http.Request) :=
  ([EvNewRequest method u body],
   match url_Parse u with
   | inl err => inl err
   | inr parsed =>
       inr {| http.Method_ := method; http.URL := parsed;
              http.Header_ := ∅; http.Body := body |}
   end).

(** The value of [getURL] in each operation. *)
Definition GetPropertyVersions_getURL (params : GetPropertyVersionsRequest) : string :=
  let getURL :=
    fmt.Sprintf "/papi/v1/properties/%s/versions?contractId=%s&groupId=%s"
      [fmt.Str (gvs_PropertyID params); fmt.Str (gvs_ContractID params);
       fmt.Str (gvs_GroupID params)] in
  let getURL :=
    if negb (gvs_Limit params =? 0)
    then getURL +:+ fmt.Sprintf "&limit=%d" [fmt.Int (gvs_Limit params)]
    else getURL in
  if negb (gvs_Offset params =? 0)
  then getURL +:+ fmt.Sprintf "&offset=%d" [fmt.Int (gvs_Offset params)]
  else getURL.

Definition GetLatestVersion_getURL (params : GetLatestVersionRequest) : string :=
  let getURL :=
    fmt.Sprintf "/papi/v1/properties/%s/versions/latest?contractId=%s&groupId=%s"
      [fmt.Str (lv_PropertyID params); fmt.Str (lv_ContractID params);
       fmt.Str (lv_GroupID params)] in
  if negb (String.eqb (lv_ActivatedOn params) EmptyString)
  then getURL +:+ fmt.Sprintf "&activatedOn=%s" [fmt.Str (lv_ActivatedOn params)]
  else getURL.

Definition GetPropertyVersion_getURL (params : GetPropertyVersionRequest) : string :=
  fmt.Sprintf "/papi/v1/properties/%s/versions/%d?contractId=%s&groupId=%s"
    [fmt.Str (gv_PropertyID params); fmt.Int (gv_PropertyVersion params);
     fmt.Str (gv_ContractID params); fmt.Str (gv_GroupID params)].

Definition CreatePropertyVersion_getURL (request : CreatePropertyVersionRequest) : string :=
  fmt.Sprintf "/papi/v1/properties/%s/versions?contractId=%s&groupId=%s"
    [fmt.Str (cv_PropertyID request); fmt.Str (cv_ContractID request);
     fmt.Str (cv_GroupID request)].

(** [GetPropertyVersions] returns list of property versions for given
    propertyID, contractID and groupID. *)
Definition GetPropertyVersions (p : papi) (params : GetPropertyVersionsRequest)
    : Call (Returns GetPropertyVersionsResponse) :=
  match Validate params with
  | Some err =>
      mret (None, Some (fmt.Errorf "%w: %s"
                          [AErr (errorString ErrStructValidation); AErrText err]))
  | None =>
      Debug "GetPropertyVersions" ;;
      let getURL := GetPropertyVersions_getURL params in
      r ← NewRequestWithContext http.MethodGet getURL None;
      match r with
      | inl err =>
          mret (None, Some (fmt.Errorf "failed to create getpropertyversions request: %w"
                              [AErr err]))
      | inr req =>
          let req := set_header req "PAPI-Use-Prefixes" (cast.ToString (usePrefixes p)) in
          r ← Exec p OutVersions req zero_GetPropertyVersionsResponse;
          match r with
          | inl err =>
              mret (None, Some (fmt.Errorf "getpropertyversions request failed: %w"
                                  [AErr err]))
          | inr (resp, versions) =>
              if http.StatusCode resp =? http.StatusNotFound then
                mret (None, Some (fmt.Errorf "%w: %s"
                                    [AErr (errorString ErrNotFound); AStr getURL]))
              else if negb (http.StatusCode resp =? http.StatusOK) then
                mret (None, Some (session.NewAPIError resp))
              else mret (Some versions, None)
          end
      end
  end.

(** [GetLatestVersion] returns either the latest property version overall,
    or the latest active version on production or staging network. *)
Definition GetLatestVersion (p : papi) (params : GetLatestVersionRequest)
    : Call (Returns GetPropertyVersionsResponse) :=
  match Validate params with
  | Some err =>
      mret (None, Some (fmt.Errorf "%w: %s"
                          [AErr (errorString ErrStructValidation); AErrText err]))
  | None =>
      Debug "GetLatestVersion" ;;
      let getURL := GetLatestVersion_getURL params in
      r ← NewRequestWithContext http.MethodGet getURL None;
      match r with
      | inl err =>
          mret (None, Some (fmt.Errorf "failed to create getlatestversion request: %w"
                              [AErr err]))
      | inr req =>
          let req := set_header req "PAPI-Use-Prefixes" (cast.ToString (usePrefixes p)) in
          r ← Exec p OutVersions req zero_GetPropertyVersionsResponse;
          match r with
          | inl err =>
              mret (None, Some (fmt.Errorf "getlatestversion request failed: %w"
                                  [AErr err]))
          | inr (resp, version) =>
              if http.StatusCode resp =? http.StatusNotFound then
                mret (None, Some (fmt.Errorf "%w: %s"
                                    [AErr (errorString ErrNotFound); AStr getURL]))
              else if negb (http.StatusCode resp =? http.StatusOK) then
                mret (None, Some (session.NewAPIError resp))
              else mret (Some version, None)
          end
      end
  end.

(** [GetPropertyVersion] returns property version with provided version
    number. *)
Definition GetPropertyVersion (p : papi) (params : GetPropertyVersionRequest)
    : Call (Returns GetPropertyVersionsResponse) :=
  match Validate params with
  | Some err =>
      mret (None, Some (fmt.Errorf "%w: %s"
                          [AErr (errorString ErrStructValidation); AErrText err]))
  | None =>
      Debug "GetPropertyVersion" ;;
      let getURL := GetPropertyVersion_getURL params in
      r ← NewRequestWithContext http.MethodGet getURL None;
      match r with
      | inl err =>
          mret (None, Some (fmt.Errorf "failed to create getpropertyversion request: %w"
                              [AErr err]))
      | inr req =>
          let req := set_header req "PAPI-Use-Prefixes" (cast.ToString (usePrefixes p)) in
          r ← Exec p OutVersions req zero_GetPropertyVersionsResponse;
          match r with
          | inl err =>
              mret (None, Some (fmt.Errorf "getpropertyversion request failed: %w"
                                  [AErr err]))
          | inr (resp, versions) =>
              if http.StatusCode resp =? http.StatusNotFound then
                mret (None, Some (fmt.Errorf "%w: %s"
                                    [AErr (errorString ErrNotFound); AStr getURL]))
              else if negb (http.StatusCode resp =? http.StatusOK) then
                mret (None, Some (session.NewAPIError resp))
              else mret (Some versions, None)
          end
      end
  end.

(** [CreatePropertyVersion] creates a new property version and returns
    location and number for the new version. *)
Definition CreatePropertyVersion (p : papi) (request : CreatePropertyVersionRequest)
    : Call (Returns CreatePropertyVersionResponse) :=
  match Validate request with
  | Some err =>
      mret (None, Some (fmt.Errorf "%w: %s"
                          [AErr (errorString ErrStructValidation); AErrText err]))
  | None =>
      Debug "CreatePropertyVersion" ;;
      let getURL := CreatePropertyVersion_getURL request in
      r ← NewRequestWithContext http.MethodPost getURL None;
      match r with
      | inl err =>
          mret (None, Some (fmt.Errorf "failed to create createpropertyversion request: %w"
                              [AErr err]))
      | inr req =>
          let req := set_header req "PAPI-Use-Prefixes" (cast.ToString (usePrefixes p)) in
          r ← Exec p OutCreate req zero_CreatePropertyVersionResponse;
          match r with
          | inl err =>
              mret (None, Some (fmt.Errorf "createpropertyversion request failed: %w"
                                  [AErr err]))
          | inr (resp, version) =>
              if negb (http.StatusCode resp =? http.StatusCreated) then
                mret (None, Some (session.NewAPIError resp))
              else
                match tools_FetchIDFromLocation (VersionLink version) with
                | inl err =>
                    mret (None, Some (fmt.Errorf "%w: %s"
                                        [AErr (errorString ErrInvalidLocation);
                                         AErrorText err]))
                | inr propertyVersion =>
                    match strconv.Atoi propertyVersion with
                    | inl _ =>
                        mret (None, Some (fmt.Errorf "%w: %s: %s"
                                            [AErr (errorString ErrInvalidLocation);
                                             AStr "version should be a number";
                                             AStr propertyVersion]))
                    | inr versionNumber =>
                        mret (Some {| VersionLink := VersionLink version;
                                      PropertyVersion := versionNumber |}, None)
                    end
                end
          end
      end
  end.

(* =================================================================== *)
(** ** The four operations under one type *)

(** The methods of the [PropertyVersions] interface, each with its
    argument. *)
Inductive Operation :=
  | OpGetPropertyVersions (params : GetPropertyVersionsRequest)
  | OpGetLatestVersion (params : GetLatestVersionRequest)
  | OpGetPropertyVersion (params : GetPropertyVersionRequest)
  | OpCreatePropertyVersion (request : CreatePropertyVersionRequest).

Inductive Response :=
  | VersionsResponse (r : GetPropertyVersionsResponse)
  | CreateResponse (r : CreatePropertyVersionResponse).

Definition tag {T} (inj : T -> Response) (m : Call (Returns T)) : Call (Returns Response) :=
  (trace m, (inj <$> fst (result m), snd (result m))).

Definition call (p : papi) (op : Operation) : Call (Returns Response) :=
  match op with
  | OpGetPropertyVersions params => tag VersionsResponse (GetPropertyVersions p params)
  | OpGetLatestVersion params => tag VersionsResponse (GetLatestVersion p params)
  | OpGetPropertyVersion params => tag VersionsResponse (GetPropertyVersion p params)
  | OpCreatePropertyVersion request => tag CreateResponse (CreatePropertyVersion p request)
  end.

Definition is_get (op : Operation) : bool :=
  match op with
  | OpCreatePropertyVersion _ => false
  | _ => true
  end.

Definition op_Validate (op : Operation) : option validation.Err :=
  match op with
  | OpGetPropertyVersions params => Validate params
  | OpGetLatestVersion params => Validate params
  | OpGetPropertyVersion params => Validate params
  | OpCreatePropertyVersion request => Validate request
  end.

Definition op_getURL (op : Operation) : string :=
  match op with
  | OpGetPropertyVersions params => GetPropertyVersions_getURL params
  | OpGetLatestVersion params => GetLatestVersion_getURL params
  | OpGetPropertyVersion params => GetPropertyVersion_getURL params
  | OpCreatePropertyVersion request => CreatePropertyVersion_getURL request
  end.

Definition op_method (op : Operation) : http.Method :=
  if is_get op then http.MethodGet else http.MethodPost.

Definition op_name (op : Operation) : string :=
  match op with
  | OpGetPropertyVersions _ => "GetPropertyVersions"
  | OpGetLatestVersion _ => "GetLatestVersion"
  | OpGetPropertyVersion _ => "GetPropertyVersion"
  | OpCreatePropertyVersion _ => "CreatePropertyVersion"
  end.

Definition op_PropertyID (op : Operation) : string :=
  match op with
  | OpGetPropertyVersions params => gvs_PropertyID params
  | OpGetLatestVersion params => lv_PropertyID params
  | OpGetPropertyVersion params => gv_PropertyID params
  | OpCreatePropertyVersion request => cv_PropertyID request
  end.

(** A required field is missing: the property ID of any request, the
    version number of [GetPropertyVersionRequest], the source version of
    [CreatePropertyVersionRequest]. *)
Definition missing_required (op : Operation) : bool :=
  String.eqb (op_PropertyID op) EmptyString
  || match op with
     | OpGetPropertyVersion params => gv_PropertyVersion params =? 0
     | OpCreatePropertyVersion request => CreateFromVersion (cv_Version request) =? 0
     | _ => false
     end.

(** The request that a trace shows as handed to the transport. *)
Fixpoint dispatched (t : list Event) : option http.Request :=
  match t with
  | [] => None
  | EvExec req :: _ => Some req
  | _ :: t' => dispatched t'
  end.

(** No request was built and none dispatched. *)
Definition no_request (t : list Event) : Prop :=
  forall ev, ev ∈ t ->
    match ev with
    | EvNewRequest _ _ _ | EvExec _ => False
    | EvDebug _ => True
    end.

(** The request as an operation hands it to the transport, once the URL
    has parsed to [u]. *)
Definition outbound (p : papi) (op : Operation) (u : url.URL) : http.Request :=
  set_header
    {| http.Method_ := op_method op; http.URL := u; http.Header_ := ∅;
       http.Body := None |}
    "PAPI-Use-Prefixes" (cast.ToString (usePrefixes p)).

(* =================================================================== *)
(** ** The URLs as the specification words them *)

Definition spec_versions_url (params : GetPropertyVersionsRequest) : string :=
  "/papi/v1/properties/" +:+ gvs_PropertyID params
    +:+ "/versions?contractId=" +:+ gvs_ContractID params
    +:+ "&groupId=" +:+ gvs_GroupID params
    +:+ (if decide (gvs_Limit params = 0) then EmptyString
         else "&limit=" +:+ strconv.Itoa (gvs_Limit params))
    +:+ (if decide (gvs_Offset params = 0) then EmptyString
         else "&offset=" +:+ strconv.Itoa (gvs_Offset params)).

Definition spec_latest_base (params : GetLatestVersionRequest) : string :=
  "/papi/v1/properties/" +:+ lv_PropertyID params
    +:+ "/versions/latest?contractId=" +:+ lv_ContractID params
    +:+ "&groupId=" +:+ lv_GroupID params.

Definition spec_latest_url (params : GetLatestVersionRequest) : string :=
  if decide (lv_ActivatedOn params = EmptyString) then spec_latest_base params
  else spec_latest_base params +:+ "&activatedOn=" +:+ lv_ActivatedOn params.

(* =================================================================== *)
(** ** Decimal numbers *)

Definition all_digits (s : string) : bool :=
  forallb is_digit (list_ascii_of_string s).

Definition digits (s : string) : bool :=
  negb (String.eqb s EmptyString) && all_digits s.

(** A decimal number: one or more digits, after an optional sign. *)
Definition is_decimal (s : string) : bool :=
  match s with
  | EmptyString => false
  | String c rest =>
      if Ascii.eqb c "+" || Ascii.eqb c "-" then digits rest else digits s
  end.

(* =================================================================== *)
(** ** Test doubles *)

(** A parser that accepts every string and splits it at the first [?]. *)
Fixpoint stub_split (s : string) : string * string :=
  match s with
  | EmptyString => (EmptyString, EmptyString)
  | String c s' =>
      if Ascii.eqb c "?" then (EmptyString, s')
      else let '(path, query) := stub_split s' in (String c path, query)
  end.

Definition stub_url_Parse (u : string) : error + url.URL :=
  let '(path, query) := stub_split u in
  inr {| url.Path := path; url.RawQuery := query |}.

(** A link reader that returns what follows the last [/]. *)
Fixpoint stub_last_segment (s acc : string) : string :=
  match s with
  | EmptyString => acc
  | String c s' =>
      if Ascii.eqb c "/" then stub_last_segment s' EmptyString
      else stub_last_segment s' (acc +:+ String c EmptyString)
  end.

Definition stub_FetchIDFromLocation (loc : string) : error + string :=
  inr (stub_last_segment loc EmptyString).

(** A transport that answers every request with one status code and fixed
    decoded values. *)
Definition stub_Session (status : Z) (versions : GetPropertyVersionsResponse)
    (created : CreatePropertyVersionResponse) : session.Session :=
  {| session.Exec := fun k _ _ =>
       inr ({| http.StatusCode := status; http.RespBody := EmptyString |},
            match k return out_type k with
            | OutVersions => versions
            | OutCreate => created
            end) |}.

Definition sample_versions_response : GetPropertyVersionsResponse :=
  {| resp_PropertyID := "prp_1"; resp_PropertyName := "example";
     resp_AccountID := "act_1"; resp_ContractID := "ctr_1";
     resp_GroupID := "grp_1"; resp_AssetID := "aid_1";
     resp_Versions := {| Items := [] |} |}.

Definition sample_created (link : string) : CreatePropertyVersionResponse :=
  {| VersionLink := link; PropertyVersion := 0 |}.

Definition stub_client (status : Z) (link : string) : papi :=
  {| Session := stub_Session status sample_versions_response (sample_created link);
     usePrefixes := true |}.

Definition response_of (status : Z) : http.Response :=
  {| http.StatusCode := status; http.RespBody := EmptyString |}.

Definition sample_versions_URL : url.URL :=
  {| url.Path := "/papi/v1/properties/prp_1/versions";
     url.RawQuery := "contractId=ctr_1&groupId=grp_1&limit=5" |}.

Definition sample_version_URL : url.URL :=
  {| url.Path := "/papi/v1/properties/prp_1/versions/2";
     url.RawQuery := "contractId=ctr_1&groupId=grp_1" |}.

Definition sample_latest_URL : url.URL :=
  {| url.Path := "/papi/v1/properties/prp_1/versions/latest";
     url.RawQuery := "contractId=ctr_1&groupId=&activatedOn=STAGING" |}.

Definition sample_create_URL : url.URL :=
  {| url.Path := "/papi/v1/properties/prp_1/versions";
     url.RawQuery := "contractId=ctr_1&groupId=grp_1" |}.

Definition sample_versions_request : GetPropertyVersionsRequest :=
  {| gvs_PropertyID := "prp_1"; gvs_ContractID := "ctr_1"; gvs_GroupID := "grp_1";
     gvs_Limit := 5; gvs_Offset := 0 |}.

Definition sample_latest_request : GetLatestVersionRequest :=
  {| lv_PropertyID := "prp_1"; lv_ActivatedOn := "STAGING";
     lv_ContractID := "ctr_1"; lv_GroupID := EmptyString |}.

Definition sample_version_request (n : Z) : GetPropertyVersionRequest :=
  {| gv_PropertyID := "prp_1"; gv_PropertyVersion := n;
     gv_ContractID := "ctr_1"; gv_GroupID := "grp_1" |}.

Definition sample_create_request (from : Z) (etag : string) : CreatePropertyVersionRequest :=
  {| cv_PropertyID := "prp_1"; cv_ContractID := "ctr_1"; cv_GroupID := "grp_1";
     cv_Version := {| CreateFromVersion := from; CreateFromVersionEtag := etag |} |}.

End Operations.

(* ===================================================================== *)
(** ** What each operation hands to and expects from the transport *)

(** The type of the value that an operation passes to [Exec] as [out]. *)
Definition op_kind (op : Operation) : OutKind :=
  match op with
  | OpCreatePropertyVersion _ => OutCreate
  | _ => OutVersions
  end.

(** The zero value of that variable. *)
Definition op_zero (op : Operation) : out_type (op_kind op) :=
  match op return out_type (op_kind op) with
  | OpGetPropertyVersions _ => zero_GetPropertyVersionsResponse
  | OpGetLatestVersion _ => zero_GetPropertyVersionsResponse
  | OpGetPropertyVersion _ => zero_GetPropertyVersionsResponse
  | OpCreatePropertyVersion _ => zero_CreatePropertyVersionResponse
  end.

(** The one status code on which an operation returns a response. *)
Definition op_success_status (op : Operation) : Z :=
  if is_get op then http.StatusOK else http.StatusCreated.

(** The URLs of [GetPropertyVersion] and [CreatePropertyVersion], by
    concatenation. *)
Definition spec_version_url (params : GetPropertyVersionRequest) : string :=
  "/papi/v1/properties/" +:+ gv_PropertyID params
    +:+ "/versions/" +:+ strconv.Itoa (gv_PropertyVersion params)
    +:+ "?contractId=" +:+ gv_ContractID params
    +:+ "&groupId=" +:+ gv_GroupID params.

Definition spec_create_url (request : CreatePropertyVersionRequest) : string :=
  "/papi/v1/properties/" +:+ cv_PropertyID request
    +:+ "/versions?contractId=" +:+ cv_ContractID request
    +:+ "&groupId=" +:+ cv_GroupID request.

(** The list request for the same property, contract and group, without
    paging. *)
Definition versions_request_of (request : CreatePropertyVersionRequest)
    : GetPropertyVersionsRequest :=
  {| gvs_PropertyID := cv_PropertyID request; gvs_ContractID := cv_ContractID request;
     gvs_GroupID := cv_GroupID request; gvs_Limit := 0; gvs_Offset := 0 |}.

(** Sentinels that an error is compared with. *)
Definition all_sentinels : list sentinel :=
  [ErrStructValidation; ErrNotFound; ErrInvalidLocation].

(** More test doubles: a parser that rejects every string, and a transport
    that fails with a given error. *)
Definition stub_url_Parse_failing (cause : error) (u : string) : error + url.URL :=
  inl cause.

Definition stub_FetchIDFromLocation_failing (cause : error) (loc : string)
    : error + string :=
  inl cause.

Definition stub_Session_failing (cause : error) : session.Session :=
  {| session.Exec := fun k _ _ => inl cause |}.

Definition stub_client_failing (cause : error) : papi :=
  {| Session := stub_Session_failing cause; usePrefixes := false |}.

Definition sample_cause : error :=
  wrapError "%w: timeout" (errorString ErrNotFound) [AErr (errorString ErrNotFound)].

Definition sample_negative_request : GetPropertyVersionsRequest :=
  {| gvs_PropertyID := "prp_1"; gvs_ContractID := "ctr_1"; gvs_GroupID := "grp_1";
     gvs_Limit := -5; gvs_Offset := 0 |}.

(* ===================================================================== *)
(** * Properties *)

(** ** The library models on sample inputs *)

Example Sprintf_example :
  fmt.Sprintf "/v/%s?limit=%d" [fmt.Str "prp_1"; fmt.Int (-20)] = "/v/prp_1?limit=-20".
Proof. reflexivity. Qed.

Example Atoi_examples :
  strconv.Atoi "42" = inr 42 /\ strconv.Atoi "-7" = inr (-7) /\
  strconv.Atoi "+0" = inr 0 /\ strconv.Atoi EmptyString = inl strconv.ErrSyntax /\
  strconv.Atoi "4x" = inl strconv.ErrSyntax /\ strconv.Atoi "-" = inl strconv.ErrSyntax /\
  strconv.Atoi "9223372036854775807" = inr 9223372036854775807 /\
  strconv.Atoi "9223372036854775808" = inl strconv.ErrRange /\
  strconv.Atoi "-9223372036854775808" = inr (-9223372036854775808).
Proof. repeat split; reflexivity. Qed.

Example CanonicalMIMEHeaderKey_example :
  http.CanonicalMIMEHeaderKey "PAPI-Use-Prefixes" = "Papi-Use-Prefixes".
Proof. reflexivity. Qed.

Example Validate_examples :
  Validate {| lv_PropertyID := "prp_1"; lv_ActivatedOn := EmptyString; lv_ContractID := EmptyString; lv_GroupID := EmptyString |} = None /\
  Validate {| lv_PropertyID := "prp_1"; lv_ActivatedOn := "STAGING"; lv_ContractID := EmptyString; lv_GroupID := EmptyString |} = None /\
  Validate {| lv_PropertyID := "prp_1"; lv_ActivatedOn := "staging"; lv_ContractID := EmptyString; lv_GroupID := EmptyString |}
    = Some (validation.Errors {[ "ActivatedOn" := validation.ErrInInvalid ]}) /\
  Validate {| cv_PropertyID := EmptyString; cv_ContractID := EmptyString; cv_GroupID := EmptyString;
              cv_Version := {| CreateFromVersion := 0; CreateFromVersionEtag := EmptyString |} |}
    = Some (validation.Errors
              (<[ "PropertyID" := validation.ErrRequired ]>
               {[ "Version" := validation.Errors {[ "CreateFromVersion" := validation.ErrRequired ]} ]})).
Proof. repeat split; vm_compute; reflexivity. Qed.

(** ** Validation *)

Lemma Filter_None_iff (es : gmap string (option validation.Err)) :
  validation.Filter es = None <-> forall k e, es !! k = Some e -> e = None.
Proof.
  unfold validation.Filter. cbv zeta.
  destruct (decide (size (omap id es) = 0%nat)) as [Hsz | Hsz].
  - split; [intros _ | reflexivity].
    intros k e Hk. apply map_size_empty_iff in Hsz.
    assert (Hl : omap id es !! k = None) by (rewrite Hsz; apply lookup_empty).
    rewrite lookup_omap, Hk in Hl. exact Hl.
  - split; [discriminate |].
    intros Hall. exfalso. apply Hsz. apply map_size_empty_iff.
    apply map_empty. intros k. rewrite lookup_omap.
    destruct (es !! k) as [e |] eqn:Hk; [| reflexivity].
    rewrite (Hall k e Hk). reflexivity.
Qed.

Lemma Filter_singleton k (e : option validation.Err) :
  validation.Filter {[ k := e ]} = None <-> e = None.
Proof.
  rewrite Filter_None_iff. split.
  - intros H. apply (H k). apply lookup_singleton_eq.
  - intros -> k' e' Hk. apply lookup_singleton_Some in Hk. symmetry. apply Hk.
Qed.

Lemma Filter_pair k1 k2 (e1 e2 : option validation.Err) :
  k1 <> k2 ->
  validation.Filter (<[ k1 := e1 ]> {[ k2 := e2 ]}) = None <-> e1 = None /\ e2 = None.
Proof.
  intros Hne. rewrite Filter_None_iff. split.
  - intros H. split.
    + apply (H k1). apply lookup_insert_eq.
    + apply (H k2). rewrite lookup_insert_ne by exact Hne. apply lookup_singleton_eq.
  - intros [-> ->] k e Hk.
    destruct (decide (k1 = k)) as [<- | Hk1].
    + rewrite lookup_insert_eq in Hk. congruence.
    + rewrite lookup_insert_ne in Hk by exact Hk1.
      apply lookup_singleton_Some in Hk. symmetry. apply Hk.
Qed.

Lemma Required_string (s : string) :
  validation.Validate not_validatable s [validation.Required] = None <-> s <> EmptyString.
Proof.
  destruct s as [| c s']; cbn; split; congruence.
Qed.

Lemma Required_int (n : Z) :
  validation.Validate not_validatable n [validation.Required] = None <-> n <> 0.
Proof.
  unfold validation.Validate, validation.Required, validation.is_empty_value,
    validation.int_IsEmpty. cbn.
  destruct (Z.eqb_spec n 0); split; congruence.
Qed.

Lemma In_versions (s : string) :
  validation.Validate not_validatable s
    [validation.In [VersionProduction; VersionStaging]] = None
  <-> s = EmptyString \/ s = "PRODUCTION" \/ s = "STAGING".
Proof.
  unfold validation.Validate, validation.In. cbn.
  destruct s as [| c s'].
  - cbn. split; auto.
  - change (validation.is_empty_value (String c s')) with false. cbv iota.
    case_bool_decide as Hin.
    + split; [intros _ | reflexivity].
      unfold VersionProduction, VersionStaging in Hin.
      set_unfold. tauto.
    + split; [discriminate |].
      intros [H | [H | H]]; [discriminate | |]; exfalso; apply Hin; rewrite H;
        unfold VersionProduction, VersionStaging; set_unfold; tauto.
Qed.

Lemma Validate_versions_iff (v : GetPropertyVersionsRequest) :
  Validate v = None <-> gvs_PropertyID v <> EmptyString.
Proof.
  unfold Validate, GetPropertyVersionsRequest_Validate.
  rewrite Filter_singleton. apply Required_string.
Qed.

Lemma Validate_version_iff (v : GetPropertyVersionRequest) :
  Validate v = None <-> gv_PropertyID v <> EmptyString /\ gv_PropertyVersion v <> 0.
Proof.
  unfold Validate, GetPropertyVersionRequest_Validate.
  rewrite Filter_pair by discriminate.
  rewrite Required_string, Required_int. reflexivity.
Qed.

Lemma Validate_create_body_iff (v : PropertyVersionCreate) :
  Validate v = None <-> CreateFromVersion v <> 0.
Proof.
  unfold Validate, PropertyVersionCreate_Validate.
  rewrite Filter_singleton. apply Required_int.
Qed.

Lemma Validate_create_iff (v : CreatePropertyVersionRequest) :
  Validate v = None <-> cv_PropertyID v <> EmptyString /\ CreateFromVersion (cv_Version v) <> 0.
Proof.
  unfold Validate at 1. unfold CreatePropertyVersionRequest_Validate.
  rewrite Filter_pair by discriminate.
  rewrite Required_string.
  change (validation.Validate (Some Validate) (cv_Version v) [])
    with (Validate (cv_Version v)).
  rewrite Validate_create_body_iff. reflexivity.
Qed.

Lemma Validate_latest_iff (v : GetLatestVersionRequest) :
  Validate v = None
  <-> lv_PropertyID v <> EmptyString
      /\ (lv_ActivatedOn v = EmptyString \/ lv_ActivatedOn v = "PRODUCTION"
          \/ lv_ActivatedOn v = "STAGING").
Proof.
  unfold Validate, GetLatestVersionRequest_Validate.
  rewrite Filter_pair by discriminate.
  rewrite Required_string, In_versions. reflexivity.
Qed.

(** ** Strings *)

Lemma append_cons (c : ascii) (s t : string) : String c s +:+ t = String c (s +:+ t).
Proof. reflexivity. Qed.

Lemma append_nil_r (s : string) : s +:+ EmptyString = s.
Proof.
  induction s as [| c s IH]; [reflexivity |]. rewrite append_cons, IH. reflexivity.
Qed.

Lemma append_assoc (a b c : string) : (a +:+ b) +:+ c = a +:+ (b +:+ c).
Proof.
  induction a as [| x a IH]; [reflexivity |]. rewrite !append_cons, IH. reflexivity.
Qed.

(** ** Running the operations *)

Arguments set_header : simpl never.
Arguments fmt.Errorf : simpl never.
Arguments fmt.Sprintf : simpl never.
Arguments GetPropertyVersions_getURL : simpl never.
Arguments GetLatestVersion_getURL : simpl never.
Arguments GetPropertyVersion_getURL : simpl never.
Arguments CreatePropertyVersion_getURL : simpl never.
Arguments strconv.Atoi : simpl never.

Section Properties.

Variable url_Parse : string -> error + url.URL.
Variable tools_FetchIDFromLocation : string -> error + string.
Variable p : papi.

Local Abbreviation run := (call url_Parse tools_FetchIDFromLocation p).

Ltac unfold_ops :=
  unfold call, tag, GetPropertyVersions, GetLatestVersion, GetPropertyVersion,
    CreatePropertyVersion, NewRequestWithContext, Exec, Debug, trace, result.

Lemma trace_tag {T} (inj : T -> Response) (m : Call (Returns T)) :
  trace (tag inj m) = trace m.
Proof. reflexivity. Qed.

Lemma call_create (request : CreatePropertyVersionRequest) :
  run (OpCreatePropertyVersion request)
  = tag CreateResponse
      (CreatePropertyVersion url_Parse tools_FetchIDFromLocation p request).
Proof. reflexivity. Qed.

Lemma trace_versions (params : GetPropertyVersionsRequest) :
  trace (run (OpGetPropertyVersions params))
  = trace (GetPropertyVersions url_Parse p params).
Proof. reflexivity. Qed.

Lemma trace_latest (params : GetLatestVersionRequest) :
  trace (run (OpGetLatestVersion params))
  = trace (GetLatestVersion url_Parse p params).
Proof. reflexivity. Qed.

Lemma trace_create (request : CreatePropertyVersionRequest) :
  trace (run (OpCreatePropertyVersion request))
  = trace (CreatePropertyVersion url_Parse tools_FetchIDFromLocation p request).
Proof. reflexivity. Qed.

Lemma op_Validate_versions (params : GetPropertyVersionsRequest) :
  op_Validate (OpGetPropertyVersions params) = Validate params.
Proof. reflexivity. Qed.

Lemma op_Validate_latest (params : GetLatestVersionRequest) :
  op_Validate (OpGetLatestVersion params) = Validate params.
Proof. reflexivity. Qed.

Lemma op_getURL_versions (params : GetPropertyVersionsRequest) :
  op_getURL (OpGetPropertyVersions params) = GetPropertyVersions_getURL params.
Proof. reflexivity. Qed.

Lemma op_getURL_latest (params : GetLatestVersionRequest) :
  op_getURL (OpGetLatestVersion params) = GetLatestVersion_getURL params.
Proof. reflexivity. Qed.

Lemma op_Validate_create (request : CreatePropertyVersionRequest) :
  op_Validate (OpCreatePropertyVersion request) = Validate request.
Proof. reflexivity. Qed.

Lemma op_getURL_create (request : CreatePropertyVersionRequest) :
  op_getURL (OpCreatePropertyVersion request) = CreatePropertyVersion_getURL request.
Proof. reflexivity. Qed.

Lemma run_invalid (op : Operation) (e : validation.Err) :
  op_Validate op = Some e ->
  run op = ([], (None, Some (fmt.Errorf "%w: %s"
                               [AErr (errorString ErrStructValidation); AErrText e]))).
Proof.
  destruct op; cbn [op_Validate]; intros Hv; unfold_ops; rewrite Hv; reflexivity.
Qed.

Lemma run_unparsed (op : Operation) (err : error) :
  op_Validate op = None ->
  url_Parse (op_getURL op) = inl err ->
  trace (run op) = [EvDebug (op_name op); EvNewRequest (op_method op) (op_getURL op) None]
  /\ fst (result (run op)) = None.
Proof.
  destruct op; cbn [op_Validate op_getURL]; intros Hv Hu; unfold_ops;
    rewrite Hv; cbn; rewrite Hu; cbn; auto.
Qed.

Lemma run_trace (op : Operation) (u : url.URL) :
  op_Validate op = None ->
  url_Parse (op_getURL op) = inr u ->
  trace (run op) = [EvDebug (op_name op);
                    EvNewRequest (op_method op) (op_getURL op) None;
                    EvExec (outbound p op u)].
Proof.
  destruct op; cbn [op_Validate op_getURL]; intros Hv Hu; unfold_ops;
    rewrite Hv; cbn; rewrite Hu; cbn;
    match goal with
    | |- context [session.Exec ?s ?k ?r ?o] => destruct (session.Exec s k r o) as [? | [? ?]]
    end; cbn; try reflexivity;
    repeat match goal with
    | |- context [if ?b then _ else _] => destruct b; cbn
    | |- context [match ?x with inl _ => _ | inr _ => _ end] => destruct x; cbn
    end; reflexivity.
Qed.

(** A dispatched request implies a valid argument and a parsed URL. *)
Lemma dispatched_inv (op : Operation) (req : http.Request) :
  dispatched (trace (run op)) = Some req ->
  op_Validate op = None
  /\ exists u, url_Parse (op_getURL op) = inr u /\ req = outbound p op u.
Proof.
  intros Hd.
  destruct (op_Validate op) as [e |] eqn:Hv.
  { rewrite (run_invalid op e Hv) in Hd. discriminate. }
  split; [reflexivity |].
  destruct (url_Parse (op_getURL op)) as [err | u] eqn:Hu.
  { destruct (run_unparsed op err Hv Hu) as [Ht _]. rewrite Ht in Hd. discriminate. }
  exists u. split; [reflexivity |].
  rewrite (run_trace op u Hv Hu) in Hd. cbn in Hd. congruence.
Qed.

Lemma run_get_result (op : Operation) (u : url.URL) (resp : http.Response)
    (versions : GetPropertyVersionsResponse) :
  is_get op = true ->
  op_Validate op = None ->
  url_Parse (op_getURL op) = inr u ->
  session.Exec (Session p) OutVersions (outbound p op u)
    zero_GetPropertyVersionsResponse = inr (resp, versions) ->
  result (run op) =
    if http.StatusCode resp =? http.StatusNotFound then
      (None, Some (fmt.Errorf "%w: %s"
                     [AErr (errorString ErrNotFound); AStr (op_getURL op)]))
    else if negb (http.StatusCode resp =? http.StatusOK) then
      (None, Some (session.NewAPIError resp))
    else (Some (VersionsResponse versions), None).
Proof.
  destruct op; cbn [is_get op_Validate op_getURL]; try discriminate;
    intros _ Hv Hu He; unfold outbound in He; cbn [op_method is_get] in He;
    unfold_ops; rewrite Hv; cbn; rewrite Hu; cbn; rewrite He; cbn;
    (destruct (http.StatusCode resp =? http.StatusNotFound);
     [reflexivity | destruct (http.StatusCode resp =? http.StatusOK); reflexivity]).
Qed.

Lemma run_create_result (request : CreatePropertyVersionRequest) (u : url.URL)
    (resp : http.Response) (version : CreatePropertyVersionResponse) :
  Validate request = None ->
  url_Parse (CreatePropertyVersion_getURL request) = inr u ->
  session.Exec (Session p) OutCreate (outbound p (OpCreatePropertyVersion request) u)
    zero_CreatePropertyVersionResponse = inr (resp, version) ->
  result (CreatePropertyVersion url_Parse tools_FetchIDFromLocation p request) =
    if negb (http.StatusCode resp =? http.StatusCreated) then
      (None, Some (session.NewAPIError resp))
    else
      match tools_FetchIDFromLocation (VersionLink version) with
      | inl err =>
          (None, Some (fmt.Errorf "%w: %s"
                         [AErr (errorString ErrInvalidLocation); AErrorText err]))
      | inr propertyVersion =>
          match strconv.Atoi propertyVersion with
          | inl _ =>
              (None, Some (fmt.Errorf "%w: %s: %s"
                             [AErr (errorString ErrInvalidLocation);
                              AStr "version should be a number";
                              AStr propertyVersion]))
          | inr versionNumber =>
              (Some {| VersionLink := VersionLink version;
                       PropertyVersion := versionNumber |}, None)
          end
      end.
Proof.
  intros Hv Hu He. unfold outbound in He. cbn [op_method is_get] in He.
  unfold_ops. rewrite Hv. cbn. rewrite Hu. cbn. rewrite He. cbn.
  destruct (http.StatusCode resp =? http.StatusCreated); cbn; [| reflexivity].
  destruct (tools_FetchIDFromLocation (VersionLink version)); cbn; [reflexivity |].
  destruct (strconv.Atoi _); reflexivity.
Qed.

(** ** Decimal segments *)

Lemma parse_digits_not_all_digits (s : string) (n : Z) :
  all_digits s = false -> exists k, strconv.parse_digits s n = inl k.
Proof.
  revert n. induction s as [| c s IH]; intros n Hd; [discriminate |].
  unfold all_digits in Hd. cbn in Hd. cbn [strconv.parse_digits].
  destruct (is_digit c); cbn in Hd.
  - destruct (strconv.maxUint64 <? _); [eauto |]. apply IH. exact Hd.
  - eauto.
Qed.

Lemma ParseUint_not_digits (s : string) :
  digits s = false -> exists k, strconv.ParseUint s = inl k.
Proof.
  unfold digits. destruct s as [| c s]; [cbn; eauto |].
  cbn [String.eqb negb andb]. intros Hd.
  unfold strconv.ParseUint. apply parse_digits_not_all_digits. exact Hd.
Qed.

Lemma Atoi_not_decimal (s : string) :
  is_decimal s = false -> exists k, strconv.Atoi s = inl k.
Proof.
  unfold is_decimal, strconv.Atoi. destruct s as [| c s]; [eauto |].
  destruct (Ascii.eqb c "+"); cbn [orb].
  - intros Hd. destruct (ParseUint_not_digits s Hd) as [k ->]. eauto.
  - destruct (Ascii.eqb c "-"); intros Hd;
      destruct (ParseUint_not_digits _ Hd) as [k ->]; eauto.
Qed.

(** ** The claims *)

(** C1.  For each of [GetPropertyVersions], [GetLatestVersion] and
    [GetPropertyVersion], on a valid argument whose URL parses: the request
    is handed to the transport, and whenever [Exec] returns a response
    without error, a 404 status gives a nil response and an error wrapping
    [session.ErrNotFound]; any other status different from 200 gives a nil
    response and the generic API error; and 200 gives the decoded
    [GetPropertyVersionsResponse] with a nil error. *)
Theorem get_status_branching (op : Operation) (u : url.URL)
    (resp : http.Response) (versions : GetPropertyVersionsResponse) :
  is_get op = true ->
  op_Validate op = None ->
  url_Parse (op_getURL op) = inr u ->
  session.Exec (Session p) OutVersions (outbound p op u)
    zero_GetPropertyVersionsResponse = inr (resp, versions) ->
  dispatched (trace (run op)) = Some (outbound p op u)
  /\ (http.StatusCode resp = 404 ->
        exists err, result (run op) = (None, Some err)
                    /\ errors.Is err ErrNotFound = true)
  /\ (http.StatusCode resp <> 404 -> http.StatusCode resp <> 200 ->
        result (run op) = (None, Some (session.NewAPIError resp)))
  /\ (http.StatusCode resp = 200 ->
        result (run op) = (Some (VersionsResponse versions), None)).
Proof.
  intros Hget Hv Hu He.
  split; [rewrite (run_trace op u Hv Hu); reflexivity |].
  rewrite (run_get_result op u resp versions Hget Hv Hu He).
  unfold http.StatusNotFound, http.StatusOK.
  repeat split.
  - intros ->. cbn. eexists. split; reflexivity.
  - intros H404 H200.
    destruct (Z.eqb_spec (http.StatusCode resp) 404); [contradiction |].
    destruct (Z.eqb_spec (http.StatusCode resp) 200); [contradiction |].
    reflexivity.
  - intros ->. reflexivity.
Qed.

(** C3.  For every request with a required field missing (an empty
    PropertyID in particular), each of the four operations returns a nil
    response and an error wrapping [ErrStructValidation], and its trace is
    empty: no HTTP request is built and none is dispatched. *)
Theorem missing_required_rejected (op : Operation) :
  missing_required op = true ->
  exists err,
    result (run op) = (None, Some err)
    /\ errors.Is err ErrStructValidation = true
    /\ trace (run op) = []
    /\ no_request (trace (run op)).
Proof.
  intros Hm.
  assert (Hinv : exists e, op_Validate op = Some e).
  { destruct (op_Validate op) as [e |] eqn:Hv; [eauto |]. exfalso.
    unfold missing_required in Hm. apply orb_true_iff in Hm.
    destruct op; cbn [op_Validate op_PropertyID] in *.
    - apply Validate_versions_iff in Hv.
      destruct Hm as [Hm | Hm]; [apply String.eqb_eq in Hm; auto | discriminate].
    - apply Validate_latest_iff in Hv as [Hv _].
      destruct Hm as [Hm | Hm]; [apply String.eqb_eq in Hm; auto | discriminate].
    - apply Validate_version_iff in Hv as [Hv1 Hv2].
      destruct Hm as [Hm | Hm]; [apply String.eqb_eq in Hm; auto |].
      apply Z.eqb_eq in Hm. auto.
    - apply Validate_create_iff in Hv as [Hv1 Hv2].
      destruct Hm as [Hm | Hm]; [apply String.eqb_eq in Hm; auto |].
      apply Z.eqb_eq in Hm. auto. }
  destruct Hinv as [e He]. rewrite (run_invalid op e He).
  eexists. repeat split.
  intros ev Hev. cbn in Hev. inversion Hev.
Qed.

(** C4.  For every valid [GetPropertyVersionsRequest] the URL of the
    request that is built is the path and the [contractId] and [groupId]
    parameters (present also when their fields are empty), followed by
    [&limit=] exactly when Limit is not 0 and by [&offset=] exactly when
    Offset is not 0; for every valid [GetLatestVersionRequest] it is the
    base URL, with [&activatedOn=] and the value appended exactly when
    ActivatedOn is not empty. *)
Theorem getURL_construction (params : GetPropertyVersionsRequest)
    (latest : GetLatestVersionRequest) :
  Validate params = None ->
  Validate latest = None ->
  GetPropertyVersions_getURL params = spec_versions_url params
  /\ GetLatestVersion_getURL latest = spec_latest_url latest
  /\ (exists rest,
        trace (GetPropertyVersions url_Parse p params)
        = EvDebug "GetPropertyVersions"
            :: EvNewRequest http.MethodGet (spec_versions_url params) None :: rest)
  /\ (exists rest,
        trace (GetLatestVersion url_Parse p latest)
        = EvDebug "GetLatestVersion"
            :: EvNewRequest http.MethodGet (spec_latest_url latest) None :: rest).
Proof.
  intros Hv Hl.
  assert (E1 : GetPropertyVersions_getURL params = spec_versions_url params).
  { unfold GetPropertyVersions_getURL, spec_versions_url.
    cbv [fmt.Sprintf fmt.render Ascii.eqb Bool.eqb orb].
    rewrite !append_nil_r.
    destruct (Z.eqb_spec (gvs_Limit params) 0) as [HL | HL];
      destruct (Z.eqb_spec (gvs_Offset params) 0) as [HO | HO];
      destruct (decide (gvs_Limit params = 0)); try contradiction;
      destruct (decide (gvs_Offset params = 0)); try contradiction;
      cbn [negb]; rewrite ?append_cons, ?append_assoc, ?append_nil_r;
      rewrite ?append_cons, ?append_assoc, ?append_nil_r; reflexivity. }
  assert (E2 : GetLatestVersion_getURL latest = spec_latest_url latest).
  { unfold GetLatestVersion_getURL, spec_latest_url, spec_latest_base.
    cbv [fmt.Sprintf fmt.render Ascii.eqb Bool.eqb orb].
    rewrite !append_nil_r.
    destruct (decide (lv_ActivatedOn latest = EmptyString)) as [HA | HA].
    - rewrite HA. reflexivity.
    - destruct (String.eqb_spec (lv_ActivatedOn latest) EmptyString); [contradiction |].
      cbn [negb]. rewrite ?append_cons, ?append_assoc. reflexivity. }
  repeat split; [exact E1 | exact E2 | |].
  - rewrite <- E1, <- trace_versions, <- op_getURL_versions.
    rewrite <- op_Validate_versions in Hv.
    destruct (url_Parse (op_getURL (OpGetPropertyVersions params))) as [err | u] eqn:Hu.
    + destruct (run_unparsed _ err Hv Hu) as [Ht _]. rewrite Ht. eauto.
    + rewrite (run_trace _ u Hv Hu). eauto.
  - rewrite <- E2, <- trace_latest, <- op_getURL_latest.
    rewrite <- op_Validate_latest in Hl.
    destruct (url_Parse (op_getURL (OpGetLatestVersion latest))) as [err | u] eqn:Hu.
    + destruct (run_unparsed _ err Hl Hu) as [Ht _]. rewrite Ht. eauto.
    + rewrite (run_trace _ u Hl Hu). eauto.
Qed.

(** C5.  On a valid request whose URL parses, when [CreatePropertyVersion]
    receives a 201 response whose versionLink cannot be parsed into a
    numeric version (the link yields no ID, or the ID is not a decimal
    number), it returns a nil response and an error wrapping
    [tools.ErrInvalidLocation]. *)
Theorem create_invalid_location (request : CreatePropertyVersionRequest)
    (u : url.URL) (resp : http.Response)
    (version : CreatePropertyVersionResponse) :
  Validate request = None ->
  url_Parse (CreatePropertyVersion_getURL request) = inr u ->
  session.Exec (Session p) OutCreate (outbound p (OpCreatePropertyVersion request) u)
    zero_CreatePropertyVersionResponse = inr (resp, version) ->
  http.StatusCode resp = 201 ->
  ((exists err, tools_FetchIDFromLocation (VersionLink version) = inl err)
   \/ (exists id, tools_FetchIDFromLocation (VersionLink version) = inr id
                  /\ is_decimal id = false)) ->
  exists err,
    result (CreatePropertyVersion url_Parse tools_FetchIDFromLocation p request)
      = (None, Some err)
    /\ errors.Is err ErrInvalidLocation = true.
Proof.
  intros Hv Hu He Hst Hbad.
  rewrite (run_create_result request u resp version Hv Hu He).
  rewrite Hst. cbn [Z.eqb Pos.eqb http.StatusCreated negb].
  destruct Hbad as [[err Hf] | [id [Hf Hdec]]]; rewrite Hf.
  - eexists. split; reflexivity.
  - destruct (Atoi_not_decimal id Hdec) as [k ->].
    eexists. split; reflexivity.
Qed.

(** C6.  On a valid request whose URL parses, when [CreatePropertyVersion]
    receives a 201 response whose versionLink parses to a numeric ID, it
    returns a response and a nil error; PropertyVersion is the integer parsed
    from the ID taken from VersionLink, and VersionLink is the link as
    decoded from the body. *)
Theorem create_version_number (request : CreatePropertyVersionRequest)
    (u : url.URL) (resp : http.Response)
    (version : CreatePropertyVersionResponse) (id : string) (n : Z) :
  Validate request = None ->
  url_Parse (CreatePropertyVersion_getURL request) = inr u ->
  session.Exec (Session p) OutCreate (outbound p (OpCreatePropertyVersion request) u)
    zero_CreatePropertyVersionResponse = inr (resp, version) ->
  http.StatusCode resp = 201 ->
  tools_FetchIDFromLocation (VersionLink version) = inr id ->
  strconv.Atoi id = inr n ->
  result (CreatePropertyVersion url_Parse tools_FetchIDFromLocation p request)
    = (Some {| VersionLink := VersionLink version; PropertyVersion := n |}, None).
Proof.
  intros Hv Hu He Hst Hf Ha.
  rewrite (run_create_result request u resp version Hv Hu He).
  rewrite Hst. cbn [Z.eqb Pos.eqb http.StatusCreated negb].
  rewrite Hf, Ha. reflexivity.
Qed.

(** C7.  Each of the four operations, once its request has passed
    validation and has been built, hands to the transport a request whose
    header [PAPI-Use-Prefixes] is the string rendering of the client's
    [usePrefixes] flag; the dispatch is the last call of the trace, after
    the request was built. *)
Theorem use_prefixes_header (op : Operation) (u : url.URL) :
  op_Validate op = None ->
  url_Parse (op_getURL op) = inr u ->
  exists req,
    trace (run op) = [EvDebug (op_name op);
                      EvNewRequest (op_method op) (op_getURL op) None;
                      EvExec req]
    /\ http.Header_Get (http.Header_ req) "PAPI-Use-Prefixes"
       = cast.ToString (usePrefixes p)
    /\ http.Header_ req !! "Papi-Use-Prefixes"
       = Some [if usePrefixes p then "true" else "false"].
Proof.
  intros Hv Hu. exists (outbound p op u). split; [apply run_trace; assumption |].
  unfold outbound, set_header, http.Header_Get, http.Header_Set. cbn [http.Header_].
  change (http.CanonicalMIMEHeaderKey "PAPI-Use-Prefixes") with "Papi-Use-Prefixes".
  rewrite lookup_insert_eq. split; [reflexivity |].
  destruct (usePrefixes p); reflexivity.
Qed.

(** C8.  [GetLatestVersionRequest.Validate] accepts exactly the requests
    with a non-empty PropertyID whose ActivatedOn is empty, PRODUCTION or
    STAGING: ActivatedOn is optional, an empty one passes, and the
    membership rule rejects only a non-empty ActivatedOn that is neither of
    the two constants. *)
Theorem latest_ActivatedOn_optional (v : GetLatestVersionRequest) :
  (Validate v = None
   <-> lv_PropertyID v <> EmptyString
       /\ (lv_ActivatedOn v = EmptyString \/ lv_ActivatedOn v = VersionProduction
           \/ lv_ActivatedOn v = VersionStaging))
  /\ (Validate v <> None
      <-> lv_PropertyID v = EmptyString
          \/ (lv_ActivatedOn v <> EmptyString /\ lv_ActivatedOn v <> VersionProduction
              /\ lv_ActivatedOn v <> VersionStaging)).
Proof.
  split; [apply Validate_latest_iff |].
  rewrite Validate_latest_iff. unfold VersionProduction, VersionStaging.
  destruct (decide (lv_PropertyID v = EmptyString)); destruct (decide (lv_ActivatedOn v = EmptyString));
    destruct (decide (lv_ActivatedOn v = "PRODUCTION"));
    destruct (decide (lv_ActivatedOn v = "STAGING")); tauto.
Qed.

(** C9.  The Required rule takes the integer 0 for a missing value:
    [GetPropertyVersion] with PropertyVersion 0 and [CreatePropertyVersion]
    with Version.CreateFromVersion 0 fail validation, whatever the other
    fields hold, and return a nil response and an error wrapping
    [ErrStructValidation] without building a request. *)
Theorem version_zero_rejected (params : GetPropertyVersionRequest)
    (request : CreatePropertyVersionRequest) :
  gv_PropertyVersion params = 0 ->
  CreateFromVersion (cv_Version request) = 0 ->
  (Validate params <> None
   /\ exists err,
        GetPropertyVersion url_Parse p params = ([], (None, Some err))
        /\ errors.Is err ErrStructValidation = true)
  /\ (Validate request <> None
      /\ exists err,
           CreatePropertyVersion url_Parse tools_FetchIDFromLocation p request
           = ([], (None, Some err))
           /\ errors.Is err ErrStructValidation = true).
Proof.
  intros Hz Hc. split.
  - destruct (Validate params) as [e |] eqn:Hv.
    + split; [discriminate |].
      unfold GetPropertyVersion. rewrite Hv. eexists. split; reflexivity.
    + apply Validate_version_iff in Hv. tauto.
  - destruct (Validate request) as [e |] eqn:Hv.
    + split; [discriminate |].
      unfold CreatePropertyVersion. rewrite Hv. eexists. split; reflexivity.
    + apply Validate_create_iff in Hv. tauto.
Qed.

(** C10.  [CreatePropertyVersion] builds its POST request with a nil body:
    for every valid request the request constructor is called with method
    POST and no body, the request handed to the transport has no body, and
    the whole outcome is the same for any other valid request with the
    same PropertyID, ContractID and GroupID: the Version field is read by
    validation only. *)
Theorem create_body_nil (request : CreatePropertyVersionRequest) :
  Validate request = None ->
  (exists rest,
     trace (CreatePropertyVersion url_Parse tools_FetchIDFromLocation p request)
     = EvDebug "CreatePropertyVersion"
         :: EvNewRequest http.MethodPost (CreatePropertyVersion_getURL request) None
         :: rest)
  /\ (forall req,
        EvExec req ∈ trace (CreatePropertyVersion url_Parse tools_FetchIDFromLocation
                              p request) ->
        http.Method_ req = http.MethodPost /\ http.Body req = None)
  /\ (forall version : PropertyVersionCreate,
        Validate version = None ->
        CreatePropertyVersion url_Parse tools_FetchIDFromLocation p
          {| cv_PropertyID := cv_PropertyID request;
             cv_ContractID := cv_ContractID request;
             cv_GroupID := cv_GroupID request;
             cv_Version := version |}
        = CreatePropertyVersion url_Parse tools_FetchIDFromLocation p request).
Proof.
  intros Hv.
  assert (Ht : exists rest,
             trace (CreatePropertyVersion url_Parse tools_FetchIDFromLocation p request)
             = EvDebug "CreatePropertyVersion"
                 :: EvNewRequest http.MethodPost (CreatePropertyVersion_getURL request) None
                 :: rest
             /\ (rest = [] \/ exists u, rest = [EvExec (outbound p (OpCreatePropertyVersion request) u)])).
  { rewrite <- trace_create, <- op_getURL_create.
    pose proof Hv as Hv'. rewrite <- op_Validate_create in Hv'.
    destruct (url_Parse (op_getURL (OpCreatePropertyVersion request))) as [err | u] eqn:Hu.
    - destruct (run_unparsed _ err Hv' Hu) as [Hr _]. rewrite Hr. eauto.
    - rewrite (run_trace _ u Hv' Hu). eauto. }
  destruct Ht as [rest [Ht Hrest]].
  split; [eauto |]. split.
  - intros req Hin. rewrite Ht in Hin.
    apply elem_of_cons in Hin as [Hin | Hin]; [discriminate |].
    apply elem_of_cons in Hin as [Hin | Hin]; [discriminate |].
    destruct Hrest as [-> | [u ->]]; [inversion Hin |].
    apply elem_of_cons in Hin as [Hin | Hin]; [| inversion Hin].
    injection Hin as ->. split; reflexivity.
  - intros version Hver.
    assert (Hv' : Validate {| cv_PropertyID := cv_PropertyID request;
                              cv_ContractID := cv_ContractID request;
                              cv_GroupID := cv_GroupID request;
                              cv_Version := version |} = None).
    { apply Validate_create_iff. cbn. apply Validate_create_iff in Hv.
      apply Validate_create_body_iff in Hver. tauto. }
    assert (Hurl : CreatePropertyVersion_getURL
                     {| cv_PropertyID := cv_PropertyID request;
                        cv_ContractID := cv_ContractID request;
                        cv_GroupID := cv_GroupID request;
                        cv_Version := version |}
                   = CreatePropertyVersion_getURL request).
    { unfold CreatePropertyVersion_getURL. reflexivity. }
    unfold CreatePropertyVersion. rewrite Hv, Hv', Hurl. reflexivity.
Qed.

End Properties.

(* ===================================================================== *)
(** * The claims on sample inputs *)

Lemma get_status_branching_witness :
  (stub_url_Parse (op_getURL (OpGetPropertyVersions sample_versions_request))
   = inr sample_versions_URL
   /\ exists err,
        result (call stub_url_Parse stub_FetchIDFromLocation (stub_client 404 "/v/1")
                  (OpGetPropertyVersions sample_versions_request)) = (None, Some err)
        /\ errors.Is err ErrNotFound = true)
  /\ (stub_url_Parse (op_getURL (OpGetLatestVersion sample_latest_request))
      = inr sample_latest_URL
      /\ result (call stub_url_Parse stub_FetchIDFromLocation (stub_client 500 "/v/1")
                   (OpGetLatestVersion sample_latest_request))
         = (None, Some (session.NewAPIError (response_of 500))))
  /\ (stub_url_Parse (op_getURL (OpGetPropertyVersion (sample_version_request 2)))
      = inr sample_version_URL
      /\ result (call stub_url_Parse stub_FetchIDFromLocation (stub_client 200 "/v/1")
                   (OpGetPropertyVersion (sample_version_request 2)))
         = (Some (VersionsResponse sample_versions_response), None)).
Proof.
  assert (Hu1 : stub_url_Parse (op_getURL (OpGetPropertyVersions sample_versions_request))
                = inr sample_versions_URL) by (vm_compute; reflexivity).
  assert (Hu2 : stub_url_Parse (op_getURL (OpGetLatestVersion sample_latest_request))
                = inr sample_latest_URL) by (vm_compute; reflexivity).
  assert (Hu3 : stub_url_Parse (op_getURL (OpGetPropertyVersion (sample_version_request 2)))
                = inr sample_version_URL) by (vm_compute; reflexivity).
  assert (Hv1 : op_Validate (OpGetPropertyVersions sample_versions_request) = None)
    by (vm_compute; reflexivity).
  assert (Hv2 : op_Validate (OpGetLatestVersion sample_latest_request) = None)
    by (vm_compute; reflexivity).
  assert (Hv3 : op_Validate (OpGetPropertyVersion (sample_version_request 2)) = None)
    by (vm_compute; reflexivity).
  split; [split; [exact Hu1 |] | split; [split; [exact Hu2 |] | split; [exact Hu3 |]]].
  - destruct (get_status_branching stub_url_Parse stub_FetchIDFromLocation
                (stub_client 404 "/v/1") (OpGetPropertyVersions sample_versions_request)
                sample_versions_URL (response_of 404) sample_versions_response
                eq_refl Hv1 Hu1 eq_refl) as [_ [H404 _]].
    apply H404. reflexivity.
  - destruct (get_status_branching stub_url_Parse stub_FetchIDFromLocation
                (stub_client 500 "/v/1") (OpGetLatestVersion sample_latest_request)
                sample_latest_URL (response_of 500) sample_versions_response
                eq_refl Hv2 Hu2 eq_refl) as [_ [_ [Hother _]]].
    apply Hother; discriminate.
  - destruct (get_status_branching stub_url_Parse stub_FetchIDFromLocation
                (stub_client 200 "/v/1") (OpGetPropertyVersion (sample_version_request 2))
                sample_version_URL (response_of 200) sample_versions_response
                eq_refl Hv3 Hu3 eq_refl) as [_ [_ [_ H200]]].
    apply H200. reflexivity.
Defined.

(** C2.  The code at the failing input: with a valid request and a
    transport that answers 404, [CreatePropertyVersion] returns
    [session.NewAPIError(resp)], the value it returns for every status other
    than 201 (500 here), while [GetPropertyVersions] on the same answer
    returns the error that wraps [session.ErrNotFound]. *)
Theorem create_404_returns_API_error :
  Validate (sample_create_request 1 "e1") = None
  /\ stub_url_Parse (CreatePropertyVersion_getURL (sample_create_request 1 "e1"))
     = inr sample_create_URL
  /\ session.Exec (Session (stub_client 404 "/v/1")) OutCreate
       (outbound (stub_client 404 "/v/1")
          (OpCreatePropertyVersion (sample_create_request 1 "e1")) sample_create_URL)
       zero_CreatePropertyVersionResponse
     = inr (response_of 404, sample_created "/v/1")
  /\ result (CreatePropertyVersion stub_url_Parse stub_FetchIDFromLocation
               (stub_client 404 "/v/1") (sample_create_request 1 "e1"))
     = (None, Some (session.NewAPIError (response_of 404)))
  /\ result (CreatePropertyVersion stub_url_Parse stub_FetchIDFromLocation
               (stub_client 500 "/v/1") (sample_create_request 1 "e1"))
     = (None, Some (session.NewAPIError (response_of 500)))
  /\ result (GetPropertyVersions stub_url_Parse (stub_client 404 "/v/1")
               sample_versions_request)
     = (None, Some (fmt.Errorf "%w: %s"
                      [AErr (errorString ErrNotFound);
                       AStr (GetPropertyVersions_getURL sample_versions_request)])).
Proof.
  repeat split; vm_compute; reflexivity.
Qed.

Lemma missing_required_rejected_witness :
  missing_required
    (OpGetLatestVersion {| lv_PropertyID := EmptyString; lv_ActivatedOn := "STAGING";
                           lv_ContractID := "ctr_1"; lv_GroupID := "grp_1" |}) = true
  /\ exists err,
       result (call stub_url_Parse stub_FetchIDFromLocation (stub_client 200 EmptyString)
                 (OpGetLatestVersion {| lv_PropertyID := EmptyString; lv_ActivatedOn := "STAGING";
                                        lv_ContractID := "ctr_1"; lv_GroupID := "grp_1" |}))
       = (None, Some err)
       /\ errors.Is err ErrStructValidation = true
       /\ trace (call stub_url_Parse stub_FetchIDFromLocation (stub_client 200 EmptyString)
                   (OpGetLatestVersion {| lv_PropertyID := EmptyString; lv_ActivatedOn := "STAGING";
                                          lv_ContractID := "ctr_1"; lv_GroupID := "grp_1" |}))
          = []
       /\ no_request
            (trace (call stub_url_Parse stub_FetchIDFromLocation (stub_client 200 EmptyString)
                      (OpGetLatestVersion {| lv_PropertyID := EmptyString; lv_ActivatedOn := "STAGING";
                                             lv_ContractID := "ctr_1";
                                             lv_GroupID := "grp_1" |}))).
Proof.
  split; [reflexivity |].
  apply (missing_required_rejected stub_url_Parse stub_FetchIDFromLocation
           (stub_client 200 EmptyString)).
  reflexivity.
Defined.

Lemma getURL_construction_witness :
  Validate sample_versions_request = None
  /\ Validate sample_latest_request = None
  /\ GetPropertyVersions_getURL sample_versions_request
     = "/papi/v1/properties/prp_1/versions?contractId=ctr_1&groupId=grp_1&limit=5"
  /\ GetLatestVersion_getURL sample_latest_request
     = "/papi/v1/properties/prp_1/versions/latest?contractId=ctr_1&groupId=&activatedOn=STAGING".
Proof.
  assert (Hv : Validate sample_versions_request = None) by (vm_compute; reflexivity).
  assert (Hl : Validate sample_latest_request = None) by (vm_compute; reflexivity).
  split; [exact Hv |]. split; [exact Hl |].
  destruct (getURL_construction stub_url_Parse stub_FetchIDFromLocation (stub_client 200 EmptyString)
              sample_versions_request sample_latest_request Hv Hl)
    as [E1 [E2 _]].
  rewrite E1, E2. split; vm_compute; reflexivity.
Defined.

Lemma create_invalid_location_witness :
  Validate (sample_create_request 1 "e1") = None
  /\ stub_url_Parse (CreatePropertyVersion_getURL (sample_create_request 1 "e1"))
     = inr sample_create_URL
  /\ is_decimal "latest" = false
  /\ (exists err,
        result (CreatePropertyVersion stub_url_Parse stub_FetchIDFromLocation
                  (stub_client 201 "/papi/v1/properties/prp_1/versions/latest")
                  (sample_create_request 1 "e1"))
        = (None, Some err)
        /\ errors.Is err ErrInvalidLocation = true)
  /\ (exists err,
        result (CreatePropertyVersion stub_url_Parse
                  (stub_FetchIDFromLocation_failing sample_cause)
                  (stub_client 201 "/papi/v1/properties/prp_1/versions/4")
                  (sample_create_request 1 "e1"))
        = (None, Some err)
        /\ errors.Is err ErrInvalidLocation = true).
Proof.
  assert (Hv : Validate (sample_create_request 1 "e1") = None)
    by (vm_compute; reflexivity).
  assert (Hu : stub_url_Parse (CreatePropertyVersion_getURL (sample_create_request 1 "e1"))
               = inr sample_create_URL) by (vm_compute; reflexivity).
  split; [exact Hv |]. split; [exact Hu |]. split; [reflexivity |]. split.
  - apply (create_invalid_location stub_url_Parse stub_FetchIDFromLocation
             (stub_client 201 "/papi/v1/properties/prp_1/versions/latest")
             (sample_create_request 1 "e1") sample_create_URL (response_of 201)
             (sample_created "/papi/v1/properties/prp_1/versions/latest")
             Hv Hu eq_refl eq_refl).
    right. exists "latest". split; reflexivity.
  - apply (create_invalid_location stub_url_Parse
             (stub_FetchIDFromLocation_failing sample_cause)
             (stub_client 201 "/papi/v1/properties/prp_1/versions/4")
             (sample_create_request 1 "e1") sample_create_URL (response_of 201)
             (sample_created "/papi/v1/properties/prp_1/versions/4")
             Hv Hu eq_refl eq_refl).
    left. exists sample_cause. reflexivity.
Defined.

Lemma create_version_number_witness :
  Validate (sample_create_request 3 "e3") = None
  /\ stub_url_Parse (CreatePropertyVersion_getURL (sample_create_request 3 "e3"))
     = inr sample_create_URL
  /\ stub_FetchIDFromLocation "/papi/v1/properties/prp_1/versions/4" = inr "4"
  /\ strconv.Atoi "4" = inr 4
  /\ result (CreatePropertyVersion stub_url_Parse stub_FetchIDFromLocation
               (stub_client 201 "/papi/v1/properties/prp_1/versions/4")
               (sample_create_request 3 "e3"))
     = (Some {| VersionLink := "/papi/v1/properties/prp_1/versions/4";
                PropertyVersion := 4 |}, None)
  /\ result (CreatePropertyVersion stub_url_Parse stub_FetchIDFromLocation
               (stub_client 201 "/papi/v1/properties/prp_9/versions/17")
               (sample_create_request 3 "e3"))
     = (Some {| VersionLink := "/papi/v1/properties/prp_9/versions/17";
                PropertyVersion := 17 |}, None).
Proof.
  assert (Hv : Validate (sample_create_request 3 "e3") = None)
    by (vm_compute; reflexivity).
  assert (Hu : stub_url_Parse (CreatePropertyVersion_getURL (sample_create_request 3 "e3"))
               = inr sample_create_URL) by (vm_compute; reflexivity).
  split; [exact Hv |]. split; [exact Hu |]. split; [reflexivity |].
  split; [reflexivity |]. split.
  - apply (create_version_number stub_url_Parse stub_FetchIDFromLocation
             (stub_client 201 "/papi/v1/properties/prp_1/versions/4")
             (sample_create_request 3 "e3") sample_create_URL (response_of 201)
             (sample_created "/papi/v1/properties/prp_1/versions/4") "4" 4
             Hv Hu eq_refl eq_refl eq_refl eq_refl).
  - apply (create_version_number stub_url_Parse stub_FetchIDFromLocation
             (stub_client 201 "/papi/v1/properties/prp_9/versions/17")
             (sample_create_request 3 "e3") sample_create_URL (response_of 201)
             (sample_created "/papi/v1/properties/prp_9/versions/17") "17" 17
             Hv Hu eq_refl eq_refl eq_refl eq_refl).
Defined.

Lemma use_prefixes_header_witness :
  op_Validate (OpGetPropertyVersion (sample_version_request 2)) = None
  /\ stub_url_Parse (op_getURL (OpGetPropertyVersion (sample_version_request 2)))
     = inr sample_version_URL
  /\ exists req,
       trace (call stub_url_Parse stub_FetchIDFromLocation (stub_client 200 "/v/1")
                (OpGetPropertyVersion (sample_version_request 2)))
       = [EvDebug (op_name (OpGetPropertyVersion (sample_version_request 2)));
          EvNewRequest (op_method (OpGetPropertyVersion (sample_version_request 2)))
            (op_getURL (OpGetPropertyVersion (sample_version_request 2))) None;
          EvExec req]
       /\ http.Header_Get (http.Header_ req) "PAPI-Use-Prefixes"
          = cast.ToString (usePrefixes (stub_client 200 "/v/1"))
       /\ http.Header_ req !! "Papi-Use-Prefixes"
          = Some [if usePrefixes (stub_client 200 "/v/1") then "true" else "false"].
Proof.
  assert (Hv : op_Validate (OpGetPropertyVersion (sample_version_request 2)) = None)
    by (vm_compute; reflexivity).
  assert (Hu : stub_url_Parse (op_getURL (OpGetPropertyVersion (sample_version_request 2)))
               = inr sample_version_URL)
    by (vm_compute; reflexivity).
  split; [exact Hv |]. split; [exact Hu |].
  exact (use_prefixes_header stub_url_Parse stub_FetchIDFromLocation (stub_client 200 "/v/1")
           (OpGetPropertyVersion (sample_version_request 2)) sample_version_URL Hv Hu).
Defined.

Lemma version_zero_rejected_witness :
  gv_PropertyVersion (sample_version_request 0) = 0
  /\ CreateFromVersion (cv_Version (sample_create_request 0 "e0")) = 0
  /\ Validate (sample_version_request 0) <> None
  /\ Validate (sample_create_request 0 "e0") <> None.
Proof.
  split; [reflexivity |]. split; [reflexivity |].
  destruct (version_zero_rejected stub_url_Parse stub_FetchIDFromLocation
              (stub_client 200 "/v/1") (sample_version_request 0)
              (sample_create_request 0 "e0") eq_refl eq_refl)
    as [[H1 _] [H2 _]].
  split; [exact H1 | exact H2].
Defined.

Lemma create_body_nil_witness :
  Validate (sample_create_request 3 "e3") = None
  /\ CreatePropertyVersion stub_url_Parse stub_FetchIDFromLocation
       (stub_client 201 "/papi/v1/properties/prp_1/versions/4")
       (sample_create_request 7 "e7")
     = CreatePropertyVersion stub_url_Parse stub_FetchIDFromLocation
         (stub_client 201 "/papi/v1/properties/prp_1/versions/4")
         (sample_create_request 3 "e3").
Proof.
  assert (Hv : Validate (sample_create_request 3 "e3") = None)
    by (vm_compute; reflexivity).
  split; [exact Hv |].
  destruct (create_body_nil stub_url_Parse stub_FetchIDFromLocation
              (stub_client 201 "/papi/v1/properties/prp_1/versions/4")
              (sample_create_request 3 "e3") Hv)
    as [_ [_ Hsame]].
  apply (Hsame {| CreateFromVersion := 7; CreateFromVersionEtag := "e7" |}).
  vm_compute; reflexivity.
Defined.

(* ===================================================================== *)
(** * Further properties of the four operations *)

Lemma Itoa_negative (n : Z) : n < 0 -> strconv.Itoa n = "-" +:+ strconv.Itoa (- n).
Proof. destruct n as [| q | q]; [lia | lia | reflexivity]. Qed.

Lemma is_digit_value (c : ascii) : is_digit c = true -> 0 <= byte_of c - byte_of "0" <= 9.
Proof.
  unfold is_digit, in_range. intros H. apply andb_true_iff in H as [H1 H2].
  apply Z.leb_le in H1. apply Z.leb_le in H2.
  change (byte_of "0") with 48 in *. change (byte_of "9") with 57 in *. lia.
Qed.

Lemma parse_digits_nonneg (s : string) (acc n : Z) :
  0 <= acc -> strconv.parse_digits s acc = inr n -> 0 <= n.
Proof.
  revert acc. induction s as [| c s IH]; intros acc Hacc H; cbn [strconv.parse_digits] in H.
  - congruence.
  - destruct (is_digit c) eqn:Hc; [| discriminate].
    destruct (strconv.maxUint64 <? _); [discriminate |].
    eapply IH; [| exact H]. pose proof (is_digit_value c Hc). lia.
Qed.

Lemma ParseUint_nonneg (s : string) (n : Z) : strconv.ParseUint s = inr n -> 0 <= n.
Proof.
  unfold strconv.ParseUint. destruct s; [discriminate |].
  apply parse_digits_nonneg. lia.
Qed.

Lemma Atoi_range (s : string) (n : Z) :
  strconv.Atoi s = inr n -> strconv.minInt64 <= n <= strconv.maxInt64.
Proof.
  unfold strconv.Atoi. destruct s as [| c s]; [discriminate |].
  cbv zeta.
  destruct (strconv.ParseUint _) as [k | un] eqn:Hp; [discriminate |].
  apply ParseUint_nonneg in Hp.
  change strconv.maxInt64 with 9223372036854775807.
  change strconv.minInt64 with (-9223372036854775808).
  destruct (Ascii.eqb c "-"); cbn [negb andb].
  - destruct (Z.ltb_spec (- -9223372036854775808) un); [discriminate |].
    intros [= <-]. lia.
  - destruct (Z.ltb_spec 9223372036854775807 un); [discriminate |].
    intros [= <-]. lia.
Qed.

Lemma Atoi_decimal (s : string) (n : Z) : strconv.Atoi s = inr n -> is_decimal s = true.
Proof.
  intros H. destruct (is_decimal s) eqn:Hd; [reflexivity |].
  destruct (Atoi_not_decimal s Hd) as [k Hk]. congruence.
Qed.

Lemma Filter_Some (es : gmap string (option validation.Err)) (e : validation.Err) :
  validation.Filter es = Some e -> e = validation.Errors (omap id es).
Proof.
  unfold validation.Filter. cbv zeta.
  destruct (decide (size (omap id es) = 0%nat)); congruence.
Qed.

Section Further.

Variable url_Parse : string -> error + url.URL.
Variable tools_FetchIDFromLocation : string -> error + string.
Variable p : papi.

Local Abbreviation run := (call url_Parse tools_FetchIDFromLocation p).

Ltac unfold_ops :=
  unfold call, tag, GetPropertyVersions, GetLatestVersion, GetPropertyVersion,
    CreatePropertyVersion, NewRequestWithContext, Exec, Debug, trace, result.

Ltac split_cases :=
  repeat (cbn;
          match goal with
          | |- context [match ?x with inl _ => _ | inr _ => _ end] =>
              first [ destruct x as [? | [? ?]] | destruct x as [? | ?] ]
          | |- context [if ?b then _ else _] => destruct b
          end).

Lemma outcome_cases (op : Operation) :
  (fst (result (run op)) = None /\ is_Some (snd (result (run op))))
  \/ (is_Some (fst (result (run op))) /\ snd (result (run op)) = None).
Proof.
  destruct op; unfold_ops;
    (destruct (Validate _); [left; cbn; eauto |]);
    split_cases; cbn; eauto.
Qed.

(** X1.  Whatever the parser, the link reader and the transport do, each of
    the four operations returns either a nil response with an error, or a
    response with a nil error: never both, never neither. *)
Theorem run_outcome_exclusive (op : Operation) :
  (fst (result (run op)) = None /\ snd (result (run op)) <> None)
  \/ (fst (result (run op)) <> None /\ snd (result (run op)) = None).
Proof.
  destruct (outcome_cases op) as [[Hn [e He]] | [[r Hr] Hs]]; [left | right];
    split; congruence.
Qed.

Lemma run_trace_prefix (op : Operation) :
  op_Validate op = None ->
  exists rest,
    trace (run op)
    = EvDebug (op_name op) :: EvNewRequest (op_method op) (op_getURL op) None :: rest.
Proof.
  intros Hv. destruct (url_Parse (op_getURL op)) as [err | u] eqn:Hu.
  - destruct (run_unparsed url_Parse tools_FetchIDFromLocation p op err Hv Hu) as [Ht _].
    rewrite Ht. eauto.
  - rewrite (run_trace url_Parse tools_FetchIDFromLocation p op u Hv Hu). eauto.
Qed.

Lemma run_unparsed_result (op : Operation) (err : error) :
  op_Validate op = None ->
  url_Parse (op_getURL op) = inl err ->
  exists e, result (run op) = (None, Some e) /\ errors.Unwrap e = Some err.
Proof.
  destruct op; cbn [op_Validate op_getURL]; intros Hv Hu; unfold_ops;
    rewrite Hv; cbn; rewrite Hu; cbn; eexists; split; reflexivity.
Qed.

Lemma run_exec_failure (op : Operation) (u : url.URL) (err : error) :
  op_Validate op = None ->
  url_Parse (op_getURL op) = inr u ->
  session.Exec (Session p) (op_kind op) (outbound p op u) (op_zero op) = inl err ->
  exists e, result (run op) = (None, Some e) /\ errors.Unwrap e = Some err.
Proof.
  destruct op; cbn [op_Validate op_getURL op_kind op_zero]; intros Hv Hu He;
    unfold outbound in He; cbn [op_method is_get] in He;
    unfold_ops; rewrite Hv; cbn; rewrite Hu; cbn; rewrite He; cbn;
    eexists; split; reflexivity.
Qed.

Lemma run_other_status (op : Operation) (u : url.URL) (resp : http.Response)
    (out : out_type (op_kind op)) :
  op_Validate op = None ->
  url_Parse (op_getURL op) = inr u ->
  session.Exec (Session p) (op_kind op) (outbound p op u) (op_zero op) = inr (resp, out) ->
  http.StatusCode resp <> op_success_status op ->
  fst (result (run op)) = None.
Proof.
  destruct op; cbn [op_Validate op_getURL op_kind op_zero] in *; intros Hv Hu He Hst;
    unfold outbound in He; cbn [op_method is_get] in He;
    unfold op_success_status in Hst; cbn [is_get] in Hst;
    unfold_ops; rewrite Hv; cbn; rewrite Hu; cbn; rewrite He; cbn;
    (try (destruct (http.StatusCode resp =? http.StatusNotFound); [reflexivity |]));
    match goal with
    | |- context [http.StatusCode resp =? ?c] =>
        destruct (Z.eqb_spec (http.StatusCode resp) c); [contradiction | reflexivity]
    end.
Qed.

Lemma Is_Unwrap (e inner : error) (t : sentinel) :
  errors.Unwrap e = Some inner -> errors.Is e t = errors.Is inner t.
Proof. destruct e; cbn; intros H; try discriminate. injection H as ->. reflexivity. Qed.

(** X2.  Every operation makes its calls in one fixed order: nothing at all
    when validation fails; otherwise one log entry and one call of the
    request constructor with the operation's method, URL and a nil body,
    followed by exactly one dispatch when the URL parses and by none when it
    does not. *)
Theorem run_call_order (op : Operation) :
  trace (run op)
  = match op_Validate op with
    | Some _ => []
    | None =>
        EvDebug (op_name op)
          :: EvNewRequest (op_method op) (op_getURL op) None
          :: match url_Parse (op_getURL op) with
             | inl _ => []
             | inr u => [EvExec (outbound p op u)]
             end
    end.
Proof.
  destruct (op_Validate op) as [e |] eqn:Hv.
  - rewrite (run_invalid url_Parse tools_FetchIDFromLocation p op e Hv). reflexivity.
  - destruct (url_Parse (op_getURL op)) as [err | u] eqn:Hu.
    + apply (run_unparsed url_Parse tools_FetchIDFromLocation p op err Hv Hu).
    + apply (run_trace url_Parse tools_FetchIDFromLocation p op u Hv Hu).
Qed.

(** X3.  When the argument is valid but the request cannot be built, each
    operation returns a nil response and an error that unwraps to the
    constructor's error (so [errors.Is] sees through it), and the transport
    is never called. *)
Theorem request_construction_failure (op : Operation) (err : error) :
  op_Validate op = None ->
  url_Parse (op_getURL op) = inl err ->
  (exists e, result (run op) = (None, Some e)
             /\ errors.Unwrap e = Some err
             /\ forall t, errors.Is e t = errors.Is err t)
  /\ dispatched (trace (run op)) = None.
Proof.
  intros Hv Hu. split.
  - destruct (run_unparsed_result op err Hv Hu) as [e [Hr He]].
    exists e. repeat split; [exact Hr | exact He |].
    intros t. apply Is_Unwrap. exact He.
  - destruct (run_unparsed url_Parse tools_FetchIDFromLocation p op err Hv Hu) as [Ht _].
    rewrite Ht. reflexivity.
Qed.

(** X4.  On a valid argument whose URL parses, when the transport returns
    an error each operation returns a nil response and an error that unwraps
    to the transport's error: a sentinel that the transport's error wraps is
    still found by [errors.Is], and no other sentinel is added. *)
Theorem transport_failure (op : Operation) (u : url.URL) (err : error) :
  op_Validate op = None ->
  url_Parse (op_getURL op) = inr u ->
  session.Exec (Session p) (op_kind op) (outbound p op u) (op_zero op) = inl err ->
  exists e, result (run op) = (None, Some e)
            /\ errors.Unwrap e = Some err
            /\ forall t, errors.Is e t = errors.Is err t.
Proof.
  intros Hv Hu He.
  destruct (run_exec_failure op u err Hv Hu He) as [e [Hr Hw]].
  exists e. repeat split; [exact Hr | exact Hw |].
  intros t. apply Is_Unwrap. exact Hw.
Qed.

(** X5.  An operation returns a response only if its argument was valid, its
    URL parsed, and the transport answered without error with the one
    success status of the operation (200 for the three GET operations, 201
    for the creation); the error is then nil.  Other 2xx codes give no
    response. *)
Theorem response_needs_success_status (op : Operation) (r : Response) :
  fst (result (run op)) = Some r ->
  op_Validate op = None
  /\ snd (result (run op)) = None
  /\ exists u resp out,
       url_Parse (op_getURL op) = inr u
       /\ session.Exec (Session p) (op_kind op) (outbound p op u) (op_zero op)
          = inr (resp, out)
       /\ http.StatusCode resp = op_success_status op.
Proof.
  intros Hr.
  destruct (op_Validate op) as [e |] eqn:Hv.
  { rewrite (run_invalid url_Parse tools_FetchIDFromLocation p op e Hv) in Hr.
    discriminate. }
  split; [reflexivity |]. split.
  { destruct (outcome_cases op) as [[Hn _] | [_ Hs]]; [congruence | exact Hs]. }
  destruct (url_Parse (op_getURL op)) as [err | u] eqn:Hu.
  { destruct (run_unparsed url_Parse tools_FetchIDFromLocation p op err Hv Hu) as [_ Hn].
    congruence. }
  exists u.
  destruct (session.Exec (Session p) (op_kind op) (outbound p op u) (op_zero op))
    as [err | [resp out]] eqn:He.
  { destruct (run_exec_failure op u err Hv Hu He) as [e [Hn _]].
    rewrite Hn in Hr. discriminate. }
  exists resp, out. repeat split.
  destruct (decide (http.StatusCode resp = op_success_status op)) as [Hst | Hst];
    [exact Hst |].
  rewrite (run_other_status op u resp out Hv Hu He Hst) in Hr. discriminate.
Qed.

(** X6.  The request that an operation hands to the transport has the
    operation's method (GET, or POST for the creation), the parsed URL, no
    body, and exactly one header: [Papi-Use-Prefixes], with the rendering of
    the client's flag as its only value. *)
Theorem dispatched_request_shape (op : Operation) (req : http.Request) :
  dispatched (trace (run op)) = Some req ->
  http.Method_ req = op_method op
  /\ url_Parse (op_getURL op) = inr (http.URL req)
  /\ http.Body req = None
  /\ http.Header_ req
     = {[ "Papi-Use-Prefixes" := [if usePrefixes p then "true" else "false"] ]}.
Proof.
  intros Hd.
  destruct (dispatched_inv url_Parse tools_FetchIDFromLocation p op req Hd)
    as [Hv [u [Hu ->]]].
  unfold outbound, set_header, http.Header_Set.
  cbn [http.Method_ http.URL http.Body http.Header_].
  change (http.CanonicalMIMEHeaderKey "PAPI-Use-Prefixes") with "Papi-Use-Prefixes".
  split; [reflexivity |]. split; [exact Hu |]. split; [reflexivity |].
  rewrite insert_empty. destruct (usePrefixes p); reflexivity.
Qed.

(** X7.  On a valid argument whose URL parses, a 404 answer makes a GET
    operation return an error that wraps [session.ErrNotFound] directly and
    carries, as its text operand, the URL that the request was built from. *)
Theorem not_found_names_URL (op : Operation) (u : url.URL)
    (resp : http.Response) (versions : GetPropertyVersionsResponse) :
  is_get op = true ->
  op_Validate op = None ->
  url_Parse (op_getURL op) = inr u ->
  session.Exec (Session p) OutVersions (outbound p op u)
    zero_GetPropertyVersionsResponse = inr (resp, versions) ->
  http.StatusCode resp = 404 ->
  result (run op)
  = (None, Some (fmt.Errorf "%w: %s"
                   [AErr (errorString ErrNotFound); AStr (op_getURL op)]))
  /\ errors.Unwrap (fmt.Errorf "%w: %s"
                      [AErr (errorString ErrNotFound); AStr (op_getURL op)])
     = Some (errorString ErrNotFound)
  /\ EvNewRequest http.MethodGet (op_getURL op) None ∈ trace (run op).
Proof.
  intros Hget Hv Hu He Hst.
  rewrite (run_get_result url_Parse tools_FetchIDFromLocation p op u resp versions
             Hget Hv Hu He).
  rewrite Hst. cbn [Z.eqb Pos.eqb http.StatusNotFound].
  split; [reflexivity |]. split; [reflexivity |].
  rewrite (run_trace url_Parse tools_FetchIDFromLocation p op u Hv Hu).
  unfold op_method. rewrite Hget. set_unfold. tauto.
Qed.

(** ** URLs *)

Lemma op_Validate_one (params : GetPropertyVersionRequest) :
  op_Validate (OpGetPropertyVersion params) = Validate params.
Proof. reflexivity. Qed.

Lemma op_getURL_one (params : GetPropertyVersionRequest) :
  op_getURL (OpGetPropertyVersion params) = GetPropertyVersion_getURL params.
Proof. reflexivity. Qed.

Lemma trace_one (params : GetPropertyVersionRequest) :
  trace (run (OpGetPropertyVersion params))
  = trace (GetPropertyVersion url_Parse p params).
Proof. reflexivity. Qed.

Lemma GetPropertyVersions_getURL_eq (params : GetPropertyVersionsRequest) :
  GetPropertyVersions_getURL params = spec_versions_url params.
Proof.
  unfold GetPropertyVersions_getURL, spec_versions_url.
  cbv [fmt.Sprintf fmt.render Ascii.eqb Bool.eqb orb].
  rewrite !append_nil_r.
  destruct (Z.eqb_spec (gvs_Limit params) 0) as [HL | HL];
    destruct (Z.eqb_spec (gvs_Offset params) 0) as [HO | HO];
    destruct (decide (gvs_Limit params = 0)); try contradiction;
    destruct (decide (gvs_Offset params = 0)); try contradiction;
    cbn [negb]; rewrite ?append_cons, ?append_assoc, ?append_nil_r;
    rewrite ?append_cons, ?append_assoc, ?append_nil_r; reflexivity.
Qed.

Lemma GetPropertyVersion_getURL_eq (params : GetPropertyVersionRequest) :
  GetPropertyVersion_getURL params = spec_version_url params.
Proof.
  unfold GetPropertyVersion_getURL, spec_version_url.
  cbv [fmt.Sprintf fmt.render Ascii.eqb Bool.eqb orb].
  rewrite !append_nil_r. reflexivity.
Qed.

Lemma CreatePropertyVersion_getURL_eq (request : CreatePropertyVersionRequest) :
  CreatePropertyVersion_getURL request = spec_create_url request.
Proof.
  unfold CreatePropertyVersion_getURL, spec_create_url.
  cbv [fmt.Sprintf fmt.render Ascii.eqb Bool.eqb orb].
  rewrite !append_nil_r. reflexivity.
Qed.

(** X8.  For every valid [GetPropertyVersionRequest] the request is built
    with method GET, a nil body and the URL
    [/papi/v1/properties/{PropertyID}/versions/{PropertyVersion}?contractId={ContractID}&groupId={GroupID}],
    the version in decimal and the three strings inserted as they are. *)
Theorem version_URL (params : GetPropertyVersionRequest) :
  Validate params = None ->
  GetPropertyVersion_getURL params = spec_version_url params
  /\ exists rest,
       trace (GetPropertyVersion url_Parse p params)
       = EvDebug "GetPropertyVersion"
           :: EvNewRequest http.MethodGet (spec_version_url params) None :: rest.
Proof.
  intros Hv. split; [apply GetPropertyVersion_getURL_eq |].
  rewrite <- op_Validate_one in Hv.
  destruct (run_trace_prefix _ Hv) as [rest Ht].
  rewrite trace_one, op_getURL_one, GetPropertyVersion_getURL_eq in Ht.
  exists rest. exact Ht.
Qed.

(** X9.  For every valid [CreatePropertyVersionRequest] the request is
    built with method POST, a nil body and the URL
    [/papi/v1/properties/{PropertyID}/versions?contractId={ContractID}&groupId={GroupID}]:
    the URL that [GetPropertyVersions] uses for the same property, contract
    and group when Limit and Offset are 0. *)
Theorem create_URL (request : CreatePropertyVersionRequest) :
  Validate request = None ->
  CreatePropertyVersion_getURL request = spec_create_url request
  /\ CreatePropertyVersion_getURL request
     = GetPropertyVersions_getURL (versions_request_of request)
  /\ exists rest,
       trace (CreatePropertyVersion url_Parse tools_FetchIDFromLocation p request)
       = EvDebug "CreatePropertyVersion"
           :: EvNewRequest http.MethodPost (spec_create_url request) None :: rest.
Proof.
  intros Hv. split; [apply CreatePropertyVersion_getURL_eq |]. split.
  - rewrite CreatePropertyVersion_getURL_eq, GetPropertyVersions_getURL_eq.
    unfold spec_create_url, spec_versions_url, versions_request_of.
    cbn [gvs_PropertyID gvs_ContractID gvs_GroupID gvs_Limit gvs_Offset].
    destruct (decide (0 = 0)) as [_ | Hne]; [| contradiction].
    rewrite !append_nil_r. reflexivity.
  - rewrite <- op_Validate_create in Hv.
    destruct (run_trace_prefix _ Hv) as [rest Ht].
    rewrite (trace_create url_Parse tools_FetchIDFromLocation p), op_getURL_create,
      CreatePropertyVersion_getURL_eq in Ht.
    exists rest. exact Ht.
Qed.

(** X10.  Limit and Offset are not validated: a request with a negative
    Limit is valid exactly when its PropertyID is not empty, and the URL then
    carries the limit with its minus sign. *)
Theorem negative_limit_rendered (params : GetPropertyVersionsRequest) :
  gvs_Limit params < 0 ->
  (Validate params = None <-> gvs_PropertyID params <> EmptyString)
  /\ GetPropertyVersions_getURL params
     = "/papi/v1/properties/" +:+ gvs_PropertyID params
         +:+ "/versions?contractId=" +:+ gvs_ContractID params
         +:+ "&groupId=" +:+ gvs_GroupID params
         +:+ "&limit=-" +:+ strconv.Itoa (- gvs_Limit params)
         +:+ (if decide (gvs_Offset params = 0) then EmptyString
              else "&offset=" +:+ strconv.Itoa (gvs_Offset params)).
Proof.
  intros Hneg. split; [apply Validate_versions_iff |].
  rewrite GetPropertyVersions_getURL_eq. unfold spec_versions_url.
  destruct (decide (gvs_Limit params = 0)) as [H0 | _]; [lia |].
  rewrite (Itoa_negative _ Hneg). reflexivity.
Qed.

(** ** What a failed validation reports *)

Lemma Filter_lookup (es : gmap string (option validation.Err)) (e : validation.Err) :
  validation.Filter es = Some e ->
  exists m, e = validation.Errors m /\ forall k, m !! k = es !! k ≫= id.
Proof.
  intros H. apply Filter_Some in H. exists (omap id es). split; [exact H |].
  intros k. apply lookup_omap.
Qed.

Lemma Required_string_value (s : string) :
  validation.Validate not_validatable s [validation.Required]
  = if decide (s = EmptyString) then Some validation.ErrRequired else None.
Proof. destruct s; reflexivity. Qed.

Lemma Required_int_value (n : Z) :
  validation.Validate not_validatable n [validation.Required]
  = if decide (n = 0) then Some validation.ErrRequired else None.
Proof.
  unfold validation.Validate, validation.Required, validation.is_empty_value,
    validation.int_IsEmpty. cbn.
  destruct (Z.eqb_spec n 0); destruct (decide (n = 0)); try contradiction; reflexivity.
Qed.

Lemma In_versions_value (s : string) :
  validation.Validate not_validatable s
    [validation.In [VersionProduction; VersionStaging]]
  = if decide (s = EmptyString \/ s = VersionProduction \/ s = VersionStaging)
    then None else Some validation.ErrInInvalid.
Proof.
  destruct (validation.Validate not_validatable s
              [validation.In [VersionProduction; VersionStaging]]) as [e |] eqn:Hv.
  - destruct (decide _) as [Hin | _].
    + apply In_versions in Hin. congruence.
    + revert Hv. unfold validation.Validate, validation.In. cbn.
      destruct (validation.is_empty_value s); [discriminate |].
      case_bool_decide; [discriminate | congruence].
  - apply In_versions in Hv. destruct (decide _) as [_ | Hn]; [reflexivity |].
    exfalso. apply Hn. exact Hv.
Qed.

(** X11.  When [GetPropertyVersionRequest.Validate] fails, its error is a
    map that reports every missing field at once: the key PropertyID is
    present exactly when PropertyID is empty, the key PropertyVersion exactly
    when PropertyVersion is 0, each with the required-rule error, and there
    is no other key. *)
Theorem version_request_errors (v : GetPropertyVersionRequest) (e : validation.Err) :
  Validate v = Some e ->
  exists m,
    e = validation.Errors m
    /\ m !! "PropertyID"
       = (if decide (gv_PropertyID v = EmptyString)
          then Some validation.ErrRequired else None)
    /\ m !! "PropertyVersion"
       = (if decide (gv_PropertyVersion v = 0)
          then Some validation.ErrRequired else None)
    /\ (forall k, k <> "PropertyID" -> k <> "PropertyVersion" -> m !! k = None).
Proof.
  unfold Validate, GetPropertyVersionRequest_Validate. intros H.
  destruct (Filter_lookup _ e H) as [m [-> Hm]]. exists m.
  split; [reflexivity |]. repeat split.
  - rewrite Hm, lookup_insert_eq. cbn. apply Required_string_value.
  - rewrite Hm, lookup_insert_ne by discriminate. rewrite lookup_singleton_eq. cbn.
    apply Required_int_value.
  - intros k H1 H2. rewrite Hm, lookup_insert_ne by congruence.
    rewrite lookup_singleton_ne by congruence. reflexivity.
Qed.

(** X12.  When [CreatePropertyVersionRequest.Validate] fails, the key
    PropertyID is present exactly when PropertyID is empty, and a source
    version of 0 is reported under the key Version as a nested map whose only
    key is CreateFromVersion; the etag is never reported. *)
Theorem create_request_errors (v : CreatePropertyVersionRequest) (e : validation.Err) :
  Validate v = Some e ->
  exists m,
    e = validation.Errors m
    /\ m !! "PropertyID"
       = (if decide (cv_PropertyID v = EmptyString)
          then Some validation.ErrRequired else None)
    /\ m !! "Version"
       = (if decide (CreateFromVersion (cv_Version v) = 0)
          then Some (validation.Errors {[ "CreateFromVersion" := validation.ErrRequired ]})
          else None)
    /\ (forall k, k <> "PropertyID" -> k <> "Version" -> m !! k = None).
Proof.
  unfold Validate at 1. unfold CreatePropertyVersionRequest_Validate. intros H.
  destruct (Filter_lookup _ e H) as [m [-> Hm]]. exists m.
  split; [reflexivity |]. repeat split.
  - rewrite Hm, lookup_insert_eq. cbn. apply Required_string_value.
  - rewrite Hm, lookup_insert_ne by discriminate. rewrite lookup_singleton_eq. cbn.
    change (validation.Validate (Some Validate) (cv_Version v) [])
      with (Validate (cv_Version v)).
    destruct (decide (CreateFromVersion (cv_Version v) = 0)) as [Hz | Hz].
    + destruct (Validate (cv_Version v)) as [e' |] eqn:Hb.
      * unfold Validate, PropertyVersionCreate_Validate in Hb.
        apply Filter_Some in Hb. rewrite Hb. do 2 f_equal.
        apply map_eq. intros k. rewrite lookup_omap.
        destruct (decide (k = "CreateFromVersion")) as [-> | Hk].
        -- rewrite !lookup_singleton_eq. cbn. rewrite Required_int_value.
           destruct (decide _); [reflexivity | contradiction].
        -- rewrite !lookup_singleton_ne by congruence. reflexivity.
      * apply Validate_create_body_iff in Hb. contradiction.
    + apply Validate_create_body_iff. exact Hz.
  - intros k H1 H2. rewrite Hm, lookup_insert_ne by congruence.
    rewrite lookup_singleton_ne by congruence. reflexivity.
Qed.

(** X13.  When [GetLatestVersionRequest.Validate] fails, the key PropertyID
    is present, with the required-rule error, exactly when PropertyID is
    empty, and the key ActivatedOn, with the membership-rule error, exactly
    when ActivatedOn is neither empty nor one of the two network constants;
    both are reported together. *)
Theorem latest_request_errors (v : GetLatestVersionRequest) (e : validation.Err) :
  Validate v = Some e ->
  exists m,
    e = validation.Errors m
    /\ m !! "PropertyID"
       = (if decide (lv_PropertyID v = EmptyString)
          then Some validation.ErrRequired else None)
    /\ m !! "ActivatedOn"
       = (if decide (lv_ActivatedOn v = EmptyString
                     \/ lv_ActivatedOn v = VersionProduction
                     \/ lv_ActivatedOn v = VersionStaging)
          then None else Some validation.ErrInInvalid)
    /\ (forall k, k <> "PropertyID" -> k <> "ActivatedOn" -> m !! k = None).
Proof.
  unfold Validate, GetLatestVersionRequest_Validate. intros H.
  destruct (Filter_lookup _ e H) as [m [-> Hm]]. exists m.
  split; [reflexivity |]. repeat split.
  - rewrite Hm, lookup_insert_eq. cbn. apply Required_string_value.
  - rewrite Hm, lookup_insert_ne by discriminate. rewrite lookup_singleton_eq. cbn.
    apply In_versions_value.
  - intros k H1 H2. rewrite Hm, lookup_insert_ne by congruence.
    rewrite lookup_singleton_ne by congruence. reflexivity.
Qed.

(** ** The creation on a 201 answer *)

(** X14.  On a valid request whose URL parses, a 201 answer never makes
    [CreatePropertyVersion] return the generic API error: either the link
    yields an ID that [strconv.Atoi] parses, and the response carries that
    number (a decimal number within the range of a 64-bit integer, a signed
    one included) and the link, or the error wraps
    [tools.ErrInvalidLocation] directly. *)
Theorem create_201_outcome (request : CreatePropertyVersionRequest)
    (u : url.URL) (resp : http.Response)
    (version : CreatePropertyVersionResponse) :
  Validate request = None ->
  url_Parse (CreatePropertyVersion_getURL request) = inr u ->
  session.Exec (Session p) OutCreate (outbound p (OpCreatePropertyVersion request) u)
    zero_CreatePropertyVersionResponse = inr (resp, version) ->
  http.StatusCode resp = 201 ->
  (exists id n,
     tools_FetchIDFromLocation (VersionLink version) = inr id
     /\ strconv.Atoi id = inr n
     /\ is_decimal id = true
     /\ strconv.minInt64 <= n <= strconv.maxInt64
     /\ result (CreatePropertyVersion url_Parse tools_FetchIDFromLocation p request)
        = (Some {| VersionLink := VersionLink version; PropertyVersion := n |}, None))
  \/ (exists err,
        result (CreatePropertyVersion url_Parse tools_FetchIDFromLocation p request)
        = (None, Some err)
        /\ errors.Unwrap err = Some (errorString ErrInvalidLocation)).
Proof.
  intros Hv Hu He Hst.
  rewrite (run_create_result url_Parse tools_FetchIDFromLocation p request u resp version
             Hv Hu He).
  rewrite Hst. cbn [Z.eqb Pos.eqb http.StatusCreated negb].
  destruct (tools_FetchIDFromLocation (VersionLink version)) as [err | id] eqn:Hf.
  - right. eexists. split; reflexivity.
  - destruct (strconv.Atoi id) as [k | n] eqn:Ha.
    + right. eexists. split; reflexivity.
    + left. exists id, n. split; [reflexivity |]. split; [exact Ha |].
      split; [apply (Atoi_decimal id n Ha) |]. split; [apply (Atoi_range id n Ha) |].
      reflexivity.
Qed.

(** ** The URL of a valid latest-version request *)

Lemma GetLatestVersion_getURL_eq (latest : GetLatestVersionRequest) :
  GetLatestVersion_getURL latest = spec_latest_url latest.
Proof.
  unfold GetLatestVersion_getURL, spec_latest_url, spec_latest_base.
  cbv [fmt.Sprintf fmt.render Ascii.eqb Bool.eqb orb].
  rewrite !append_nil_r.
  destruct (decide (lv_ActivatedOn latest = EmptyString)) as [HA | HA].
  - rewrite HA. reflexivity.
  - destruct (String.eqb_spec (lv_ActivatedOn latest) EmptyString); [contradiction |].
    cbn [negb]. rewrite ?append_cons, ?append_assoc. reflexivity.
Qed.

(** X15.  Validation bounds what [GetLatestVersion] appends to its URL: for
    a valid request the URL is the base URL alone, or the base URL followed
    by [&activatedOn=PRODUCTION] or by [&activatedOn=STAGING]; no other value
    of ActivatedOn reaches the query string. *)
Theorem latest_URL_suffixes (latest : GetLatestVersionRequest) :
  Validate latest = None ->
  GetLatestVersion_getURL latest = spec_latest_base latest
  \/ GetLatestVersion_getURL latest
     = spec_latest_base latest +:+ "&activatedOn=PRODUCTION"
  \/ GetLatestVersion_getURL latest
     = spec_latest_base latest +:+ "&activatedOn=STAGING".
Proof.
  intros Hv. apply Validate_latest_iff in Hv as [_ Hact].
  rewrite GetLatestVersion_getURL_eq. unfold spec_latest_url.
  destruct Hact as [H | [H | H]]; rewrite H.
  - left. reflexivity.
  - right. left. reflexivity.
  - right. right. reflexivity.
Qed.

End Further.

(* ===================================================================== *)
(** * The further properties on sample inputs *)

Lemma request_construction_failure_witness :
  op_Validate (OpGetPropertyVersions sample_versions_request) = None
  /\ (exists e,
        result (call (stub_url_Parse_failing sample_cause) stub_FetchIDFromLocation
                  (stub_client 200 "/v/1") (OpGetPropertyVersions sample_versions_request))
        = (None, Some e)
        /\ errors.Unwrap e = Some sample_cause
        /\ forall t, errors.Is e t = errors.Is sample_cause t)
  /\ dispatched
       (trace (call (stub_url_Parse_failing sample_cause) stub_FetchIDFromLocation
                 (stub_client 200 "/v/1") (OpGetPropertyVersions sample_versions_request)))
     = None.
Proof.
  assert (Hv : op_Validate (OpGetPropertyVersions sample_versions_request) = None)
    by (vm_compute; reflexivity).
  split; [exact Hv |].
  exact (request_construction_failure (stub_url_Parse_failing sample_cause)
           stub_FetchIDFromLocation (stub_client 200 "/v/1")
           (OpGetPropertyVersions sample_versions_request) sample_cause Hv eq_refl).
Defined.

Lemma transport_failure_witness :
  op_Validate (OpCreatePropertyVersion (sample_create_request 1 "e1")) = None
  /\ op_Validate (OpGetLatestVersion sample_latest_request) = None
  /\ (exists e,
        result (call stub_url_Parse stub_FetchIDFromLocation
                  (stub_client_failing sample_cause)
                  (OpCreatePropertyVersion (sample_create_request 1 "e1")))
        = (None, Some e)
        /\ errors.Unwrap e = Some sample_cause
        /\ forall t, errors.Is e t = errors.Is sample_cause t)
  /\ (exists e,
        result (call stub_url_Parse stub_FetchIDFromLocation
                  (stub_client_failing sample_cause)
                  (OpGetLatestVersion sample_latest_request))
        = (None, Some e)
        /\ errors.Unwrap e = Some sample_cause
        /\ forall t, errors.Is e t = errors.Is sample_cause t).
Proof.
  assert (Hv1 : op_Validate (OpCreatePropertyVersion (sample_create_request 1 "e1")) = None)
    by (vm_compute; reflexivity).
  assert (Hv2 : op_Validate (OpGetLatestVersion sample_latest_request) = None)
    by (vm_compute; reflexivity).
  assert (Hu1 : stub_url_Parse
                  (op_getURL (OpCreatePropertyVersion (sample_create_request 1 "e1")))
                = inr sample_create_URL) by (vm_compute; reflexivity).
  assert (Hu2 : stub_url_Parse (op_getURL (OpGetLatestVersion sample_latest_request))
                = inr sample_latest_URL) by (vm_compute; reflexivity).
  split; [exact Hv1 |]. split; [exact Hv2 |]. split.
  - exact (transport_failure stub_url_Parse stub_FetchIDFromLocation
             (stub_client_failing sample_cause)
             (OpCreatePropertyVersion (sample_create_request 1 "e1"))
             sample_create_URL sample_cause Hv1 Hu1 eq_refl).
  - exact (transport_failure stub_url_Parse stub_FetchIDFromLocation
             (stub_client_failing sample_cause)
             (OpGetLatestVersion sample_latest_request)
             sample_latest_URL sample_cause Hv2 Hu2 eq_refl).
Defined.

Lemma response_needs_success_status_witness :
  fst (result (call stub_url_Parse stub_FetchIDFromLocation (stub_client 200 "/v/1")
                 (OpGetPropertyVersion (sample_version_request 2))))
  = Some (VersionsResponse sample_versions_response)
  /\ snd (result (call stub_url_Parse stub_FetchIDFromLocation (stub_client 200 "/v/1")
                    (OpGetPropertyVersion (sample_version_request 2))))
     = None.
Proof.
  assert (Hr : fst (result (call stub_url_Parse stub_FetchIDFromLocation
                              (stub_client 200 "/v/1")
                              (OpGetPropertyVersion (sample_version_request 2))))
               = Some (VersionsResponse sample_versions_response))
    by (vm_compute; reflexivity).
  split; [exact Hr |].
  destruct (response_needs_success_status stub_url_Parse stub_FetchIDFromLocation
              (stub_client 200 "/v/1") (OpGetPropertyVersion (sample_version_request 2))
              _ Hr) as [_ [Hs _]].
  exact Hs.
Defined.

Lemma dispatched_request_shape_witness :
  dispatched (trace (call stub_url_Parse stub_FetchIDFromLocation (stub_client 404 "/v/1")
                       (OpGetPropertyVersions sample_versions_request)))
  = Some (outbound (stub_client 404 "/v/1") (OpGetPropertyVersions sample_versions_request)
            sample_versions_URL)
  /\ http.Header_ (outbound (stub_client 404 "/v/1")
                     (OpGetPropertyVersions sample_versions_request) sample_versions_URL)
     = {[ "Papi-Use-Prefixes" := ["true"] ]}.
Proof.
  assert (Hd : dispatched (trace (call stub_url_Parse stub_FetchIDFromLocation
                                    (stub_client 404 "/v/1")
                                    (OpGetPropertyVersions sample_versions_request)))
               = Some (outbound (stub_client 404 "/v/1")
                         (OpGetPropertyVersions sample_versions_request)
                         sample_versions_URL))
    by (vm_compute; reflexivity).
  split; [exact Hd |].
  destruct (dispatched_request_shape stub_url_Parse stub_FetchIDFromLocation
              (stub_client 404 "/v/1") (OpGetPropertyVersions sample_versions_request)
              _ Hd) as [_ [_ [_ Hh]]].
  exact Hh.
Defined.

Lemma not_found_names_URL_witness :
  op_Validate (OpGetPropertyVersions sample_versions_request) = None
  /\ op_Validate (OpGetLatestVersion sample_latest_request) = None
  /\ result (call stub_url_Parse stub_FetchIDFromLocation (stub_client 404 "/v/1")
               (OpGetPropertyVersions sample_versions_request))
     = (None, Some (fmt.Errorf "%w: %s"
                      [AErr (errorString ErrNotFound);
                       AStr (op_getURL (OpGetPropertyVersions sample_versions_request))]))
  /\ result (call stub_url_Parse stub_FetchIDFromLocation (stub_client 404 "/v/1")
               (OpGetLatestVersion sample_latest_request))
     = (None, Some (fmt.Errorf "%w: %s"
                      [AErr (errorString ErrNotFound);
                       AStr (op_getURL (OpGetLatestVersion sample_latest_request))])).
Proof.
  assert (Hv1 : op_Validate (OpGetPropertyVersions sample_versions_request) = None)
    by (vm_compute; reflexivity).
  assert (Hv2 : op_Validate (OpGetLatestVersion sample_latest_request) = None)
    by (vm_compute; reflexivity).
  assert (Hu1 : stub_url_Parse (op_getURL (OpGetPropertyVersions sample_versions_request))
                = inr sample_versions_URL) by (vm_compute; reflexivity).
  assert (Hu2 : stub_url_Parse (op_getURL (OpGetLatestVersion sample_latest_request))
                = inr sample_latest_URL) by (vm_compute; reflexivity).
  split; [exact Hv1 |]. split; [exact Hv2 |]. split.
  - destruct (not_found_names_URL stub_url_Parse stub_FetchIDFromLocation
                (stub_client 404 "/v/1") (OpGetPropertyVersions sample_versions_request)
                sample_versions_URL (response_of 404) sample_versions_response
                eq_refl Hv1 Hu1 eq_refl eq_refl) as [Hr _].
    exact Hr.
  - destruct (not_found_names_URL stub_url_Parse stub_FetchIDFromLocation
                (stub_client 404 "/v/1") (OpGetLatestVersion sample_latest_request)
                sample_latest_URL (response_of 404) sample_versions_response
                eq_refl Hv2 Hu2 eq_refl eq_refl) as [Hr _].
    exact Hr.
Defined.

Lemma version_URL_witness :
  Validate (sample_version_request 2) = None
  /\ GetPropertyVersion_getURL (sample_version_request 2)
     = "/papi/v1/properties/prp_1/versions/2?contractId=ctr_1&groupId=grp_1".
Proof.
  assert (Hv : Validate (sample_version_request 2) = None) by (vm_compute; reflexivity).
  split; [exact Hv |].
  destruct (version_URL stub_url_Parse stub_FetchIDFromLocation (stub_client 200 "/v/1")
              (sample_version_request 2) Hv) as [E _].
  rewrite E. vm_compute. reflexivity.
Defined.

Lemma create_URL_witness :
  Validate (sample_create_request 3 "e3") = None
  /\ CreatePropertyVersion_getURL (sample_create_request 3 "e3")
     = "/papi/v1/properties/prp_1/versions?contractId=ctr_1&groupId=grp_1".
Proof.
  assert (Hv : Validate (sample_create_request 3 "e3") = None)
    by (vm_compute; reflexivity).
  split; [exact Hv |].
  destruct (create_URL stub_url_Parse stub_FetchIDFromLocation (stub_client 201 "/v/1")
              (sample_create_request 3 "e3") Hv) as [E _].
  rewrite E. vm_compute. reflexivity.
Defined.

Lemma negative_limit_rendered_witness :
  gvs_Limit sample_negative_request < 0
  /\ Validate sample_negative_request = None
  /\ GetPropertyVersions_getURL sample_negative_request
     = "/papi/v1/properties/prp_1/versions?contractId=ctr_1&groupId=grp_1&limit=-5".
Proof.
  assert (Hn : gvs_Limit sample_negative_request < 0) by reflexivity.
  split; [exact Hn |].
  destruct (negative_limit_rendered sample_negative_request Hn) as [Hv E].
  split; [apply Hv; discriminate |].
  rewrite E. vm_compute. reflexivity.
Defined.

Lemma version_request_errors_witness :
  Validate {| gv_PropertyID := EmptyString; gv_PropertyVersion := 0;
              gv_ContractID := "ctr_1"; gv_GroupID := "grp_1" |}
  = Some (validation.Errors
            (<[ "PropertyID" := validation.ErrRequired ]>
             {[ "PropertyVersion" := validation.ErrRequired ]}))
  /\ exists m,
       validation.Errors
         (<[ "PropertyID" := validation.ErrRequired ]>
          {[ "PropertyVersion" := validation.ErrRequired ]})
       = validation.Errors m
       /\ m !! "PropertyID" = Some validation.ErrRequired
       /\ m !! "PropertyVersion" = Some validation.ErrRequired.
Proof.
  assert (Hv : Validate {| gv_PropertyID := EmptyString; gv_PropertyVersion := 0;
                           gv_ContractID := "ctr_1"; gv_GroupID := "grp_1" |}
               = Some (validation.Errors
                         (<[ "PropertyID" := validation.ErrRequired ]>
                          {[ "PropertyVersion" := validation.ErrRequired ]})))
    by (vm_compute; reflexivity).
  split; [exact Hv |].
  destruct (version_request_errors _ _ Hv) as [m [He [H1 [H2 _]]]].
  exists m. split; [exact He |]. split; [exact H1 | exact H2].
Defined.

Lemma create_request_errors_witness :
  Validate (sample_create_request 0 "e0")
  = Some (validation.Errors
            {[ "Version" :=
                 validation.Errors {[ "CreateFromVersion" := validation.ErrRequired ]} ]})
  /\ exists m,
       validation.Errors
         {[ "Version" :=
              validation.Errors {[ "CreateFromVersion" := validation.ErrRequired ]} ]}
       = validation.Errors m
       /\ m !! "PropertyID" = None
       /\ m !! "Version"
          = Some (validation.Errors {[ "CreateFromVersion" := validation.ErrRequired ]}).
Proof.
  assert (Hv : Validate (sample_create_request 0 "e0")
               = Some (validation.Errors
                         {[ "Version" :=
                              validation.Errors
                                {[ "CreateFromVersion" := validation.ErrRequired ]} ]}))
    by (vm_compute; reflexivity).
  split; [exact Hv |].
  destruct (create_request_errors _ _ Hv) as [m [He [H1 [H2 _]]]].
  exists m. split; [exact He |]. split; [exact H1 | exact H2].
Defined.

Lemma latest_request_errors_witness :
  Validate {| lv_PropertyID := "prp_1"; lv_ActivatedOn := "staging";
              lv_ContractID := "ctr_1"; lv_GroupID := "grp_1" |}
  = Some (validation.Errors {[ "ActivatedOn" := validation.ErrInInvalid ]})
  /\ exists m,
       validation.Errors {[ "ActivatedOn" := validation.ErrInInvalid ]}
       = validation.Errors m
       /\ m !! "PropertyID" = None
       /\ m !! "ActivatedOn" = Some validation.ErrInInvalid.
Proof.
  assert (Hv : Validate {| lv_PropertyID := "prp_1"; lv_ActivatedOn := "staging";
                           lv_ContractID := "ctr_1"; lv_GroupID := "grp_1" |}
               = Some (validation.Errors {[ "ActivatedOn" := validation.ErrInInvalid ]}))
    by (vm_compute; reflexivity).
  split; [exact Hv |].
  destruct (latest_request_errors _ _ Hv) as [m [He [H1 [H2 _]]]].
  exists m. split; [exact He |]. split; [exact H1 | exact H2].
Defined.

Lemma create_201_outcome_witness :
  Validate (sample_create_request 3 "e3") = None
  /\ stub_url_Parse (CreatePropertyVersion_getURL (sample_create_request 3 "e3"))
     = inr sample_create_URL
  /\ result (CreatePropertyVersion stub_url_Parse stub_FetchIDFromLocation
               (stub_client 201 "/papi/v1/properties/prp_1/versions/-4")
               (sample_create_request 3 "e3"))
     = (Some {| VersionLink := "/papi/v1/properties/prp_1/versions/-4";
                PropertyVersion := -4 |}, None)
  /\ exists err,
       result (CreatePropertyVersion stub_url_Parse stub_FetchIDFromLocation
                 (stub_client 201 "/papi/v1/properties/prp_1/versions/")
                 (sample_create_request 3 "e3"))
       = (None, Some err)
       /\ errors.Unwrap err = Some (errorString ErrInvalidLocation).
Proof.
  assert (Hv : Validate (sample_create_request 3 "e3") = None)
    by (vm_compute; reflexivity).
  assert (Hu : stub_url_Parse (CreatePropertyVersion_getURL (sample_create_request 3 "e3"))
               = inr sample_create_URL) by (vm_compute; reflexivity).
  split; [exact Hv |]. split; [exact Hu |]. split.
  - destruct (create_201_outcome stub_url_Parse stub_FetchIDFromLocation
                (stub_client 201 "/papi/v1/properties/prp_1/versions/-4")
                (sample_create_request 3 "e3") sample_create_URL (response_of 201)
                (sample_created "/papi/v1/properties/prp_1/versions/-4")
                Hv Hu eq_refl eq_refl)
      as [[id [n [Hf [Ha [_ [_ Hr]]]]]] | [err [Hr _]]].
    + rewrite Hr. vm_compute in Hf. injection Hf as <-.
      vm_compute in Ha. injection Ha as <-. reflexivity.
    + exfalso. vm_compute in Hr. discriminate Hr.
  - destruct (create_201_outcome stub_url_Parse stub_FetchIDFromLocation
                (stub_client 201 "/papi/v1/properties/prp_1/versions/")
                (sample_create_request 3 "e3") sample_create_URL (response_of 201)
                (sample_created "/papi/v1/properties/prp_1/versions/")
                Hv Hu eq_refl eq_refl)
      as [[id [n [Hf [Ha _]]]] | Herr].
    + exfalso. vm_compute in Hf. injection Hf as <-.
      vm_compute in Ha. discriminate Ha.
    + exact Herr.
Defined.

Lemma latest_URL_suffixes_witness :
  Validate sample_latest_request = None
  /\ GetLatestVersion_getURL sample_latest_request
     = spec_latest_base sample_latest_request +:+ "&activatedOn=STAGING".
Proof.
  assert (Hv : Validate sample_latest_request = None) by (vm_compute; reflexivity).
  split; [exact Hv |].
  destruct (latest_URL_suffixes sample_latest_request Hv) as [H | [H | H]].
  - exfalso. vm_compute in H. discriminate H.
  - exfalso. vm_compute in H. discriminate H.
  - exact H.
Defined.
